(** * Travel Data Aggregator API: a shallow embedding of [backend-api/main.py]

    The service receives a country identifier, calls three public HTTP
    services (country directory, geocoding, weather) and merges their
    answers with static tables.  The embedding keeps the shape of the
    Python code:

    - text is [string], and the text operations are those of Python on
      ASCII text ([is_ascii]): [str.lower], [str.upper] and [str.strip]
      act on the ASCII letters and the ASCII white space; the properties
      that depend on case folding or trimming of a name assume that the
      names are ASCII;
    - a Python [float] is an IEEE-754 binary64 value, [spec_float] of the
      standard library, compared with [SFltb];
    - a decoded JSON body is a [json] value, a JSON object being an
      association list in insertion order, as a Python [dict] is;
    - the validation that pydantic applies to the [int] and [float]
      fields of the models is a parameter ([pydantic]): the properties
      hold for whatever values it accepts;
    - a handler is a computation in the monad [M]: it reads the answers of
      the upstream services from a [world], records every request it sends
      and ends with a value, an [HTTPException] or an uncaught Python
      exception. *)

From Stdlib Require Import String Ascii List ZArith Bool Lia SpecFloat.
Import ListNotations.
Local Open Scope list_scope.
Local Open Scope string_scope.

(** ** Python strings *)

Fixpoint map_string (f : ascii -> ascii) (s : string) : string :=
  match s with
  | EmptyString => EmptyString
  | String c s' => String (f c) (map_string f s')
  end.

Definition lower_ascii (c : ascii) : ascii :=
  let n := nat_of_ascii c in
  if ((65 <=? n) && (n <=? 90))%nat then ascii_of_nat (n + 32) else c.

Definition upper_ascii (c : ascii) : ascii :=
  let n := nat_of_ascii c in
  if ((97 <=? n) && (n <=? 122))%nat then ascii_of_nat (n - 32) else c.

(** Text within the ASCII range, on which the operations below are those
    of Python's [str]. *)
Fixpoint is_ascii (s : string) : bool :=
  match s with
  | EmptyString => true
  | String c s' => (nat_of_ascii c <? 128)%nat && is_ascii s'
  end.

(** [s.lower()] and [s.upper()] for ASCII text [s]. *)
Definition lower (s : string) : string := map_string lower_ascii s.
Definition upper (s : string) : string := map_string upper_ascii s.

(** The ASCII characters for which [str.isspace] holds (the white space
    [str.strip] removes from ASCII text): tab, line feed,
    vertical tab, form feed, carriage return, the four separators
    0x1c-0x1f and the space. *)
Definition is_space (c : ascii) : bool :=
  let n := nat_of_ascii c in
  (((9 <=? n) && (n <=? 13)) || ((28 <=? n) && (n <=? 32)))%nat.

Fixpoint lstrip (s : string) : string :=
  match s with
  | EmptyString => EmptyString
  | String c s' => if is_space c then lstrip s' else s
  end.

Fixpoint rstrip (s : string) : string :=
  match s with
  | EmptyString => EmptyString
  | String c s' =>
      match rstrip s' with
      | EmptyString => if is_space c then EmptyString else String c EmptyString
      | r => String c r
      end
  end.

(** [s.strip()] for ASCII text [s]. *)
Definition strip (s : string) : string := rstrip (lstrip s).

(** [sub in s] on strings: [sub] occurs in [s] as a contiguous block. *)
Fixpoint contains (sub s : string) : bool :=
  prefix sub s ||
  match s with
  | EmptyString => false
  | String _ s' => contains sub s'
  end.

(** [l.append(x)], on the value of the list. *)
Definition py_append {A} (l : list A) (x : A) : list A := (l ++ [x])%list.

(** [sep.join(l)]. *)
Definition join (sep : string) (l : list string) : string := String.concat sep l.

(** [l[:n]]. *)
Definition py_slice_to {A} (n : nat) (l : list A) : list A := firstn n l.

(** ** Python floats *)

(** The binary64 value of an integer that binary64 holds exactly, as the
    integer literals of the source are: [t > 30] compares [t] with
    [float_of_Z 30]. *)
Definition float_of_Z (z : Z) : spec_float := binary_normalize 53 1024 z 0 false.

(** The integer a float is equal to, when there is one: [1.0 == 1]. *)
Definition Z_of_float (f : spec_float) : option Z :=
  match f with
  | S754_zero _ => Some 0%Z
  | S754_finite s m e =>
      let v := if (0 <=? e)%Z then Some (Z.shiftl (Zpos m) e)
               else if (Z.land (Zpos m) (Z.ones (- e)) =? 0)%Z
                    then Some (Z.shiftr (Zpos m) (- e)) else None in
      option_map (fun z => if s then (- z)%Z else z) v
  | _ => None
  end.

(** ** Decoded JSON *)

Local Set Warnings "-register-all".

Inductive json : Type :=
| JNull
| JBool (b : bool)
| JNum (z : Z)
| JFloat (f : spec_float)
| JStr (s : string)
| JArr (l : list json)
| JObj (kv : list (string * json)).

(** A literal [dict] with string keys, and its [d.get(k)]. *)
Fixpoint dict_get {V} (d : list (string * V)) (k : string) : option V :=
  match d with
  | [] => None
  | (k', v) :: d' => if String.eqb k k' then Some v else dict_get d' k
  end.

(** A literal [dict] with integer keys. *)
Fixpoint int_dict_get {V} (d : list (Z * V)) (k : Z) : option V :=
  match d with
  | [] => None
  | (k', v) :: d' => if Z.eqb k k' then Some v else int_dict_get d' k
  end.

(** Truth value of a decoded JSON value in an [if] or a conditional
    expression. *)
Definition truthy (j : json) : bool :=
  match j with
  | JNull => false
  | JBool b => b
  | JNum z => negb (z =? 0)%Z
  | JFloat f => negb (SFeqb f (S754_zero false))
  | JStr s => negb (String.eqb s "")
  | JArr l => match l with [] => false | _ => true end
  | JObj kv => match kv with [] => false | _ => true end
  end.

(** ** Outcomes of Python code *)

(** The Python exceptions the handlers can let escape. *)
Inductive pyexn : Type :=
| AttributeError | KeyError | IndexError | TypeError
| ValidationError | JSONDecodeError.

(** A piece of Python code returns a value, raises FastAPI's
    [HTTPException(status_code, detail)], or raises another exception,
    which nothing in [main.py] catches. *)
Inductive outcome (A : Type) : Type :=
| Ret (a : A)
| HTTPException (status_code : Z) (detail : string)
| Raise (e : pyexn).
Arguments Ret {A} a.
Arguments HTTPException {A} status_code detail.
Arguments Raise {A} e.

Definition obind {A B} (m : outcome A) (k : A -> outcome B) : outcome B :=
  match m with
  | Ret a => k a
  | HTTPException c d => HTTPException c d
  | Raise e => Raise e
  end.

Notation "x <- m ;; k" := (obind m (fun x => k))
  (at level 61, m at next level, right associativity).

(** A [for] loop that builds a list, one element per iteration. *)
Fixpoint for_each {A B} (f : A -> outcome B) (l : list A) : outcome (list B) :=
  match l with
  | [] => Ret []
  | x :: l' => y <- f x ;; ys <- for_each f l' ;; Ret (y :: ys)
  end.

(** ** Python operations on decoded JSON *)

(** [d.get(k, default)]. *)
Definition py_get (d : json) (k : string) (default : json) : outcome json :=
  match d with
  | JObj kv => Ret (match dict_get kv k with Some v => v | None => default end)
  | _ => Raise AttributeError
  end.

(** [list(d.keys())] and [list(d.values())]. *)
Definition py_keys (d : json) : outcome (list json) :=
  match d with
  | JObj kv => Ret (map (fun p => JStr (fst p)) kv)
  | _ => Raise AttributeError
  end.

Definition py_values (d : json) : outcome (list json) :=
  match d with
  | JObj kv => Ret (map snd kv)
  | _ => Raise AttributeError
  end.

(** [x[0]]. *)
Definition py_index0 (x : json) : outcome json :=
  match x with
  | JArr (y :: _) => Ret y
  | JArr [] => Raise IndexError
  | JStr (String c _) => Ret (JStr (String c EmptyString))
  | JStr EmptyString => Raise IndexError
  | JObj _ => Raise KeyError
  | _ => Raise TypeError
  end.

(** [x[k]] for a string key [k]. *)
Definition py_item (x : json) (k : string) : outcome json :=
  match x with
  | JObj kv => match dict_get kv k with Some v => Ret v | None => Raise KeyError end
  | _ => Raise TypeError
  end.

(** The elements a [for] loop over [x] visits. *)
Definition py_iter (x : json) : outcome (list json) :=
  match x with
  | JArr l => Ret l
  | JObj kv => Ret (map (fun p => JStr (fst p)) kv)
  | JStr s => Ret (map (fun c => JStr (String c EmptyString)) (list_ascii_of_string s))
  | _ => Raise TypeError
  end.

(** [len(x) > 0]. *)
Definition py_len_pos (x : json) : outcome bool :=
  match x with
  | JArr l => Ret (negb (Nat.eqb (List.length l) 0))
  | JObj kv => Ret (negb (Nat.eqb (List.length kv) 0))
  | JStr s => Ret (negb (Nat.eqb (String.length s) 0))
  | _ => Raise TypeError
  end.

(** ** The models *)

Module Destination.
Record t : Type := Build {
    country_code : string;
    country_name : string;
    capital : string;
    region : string;
    population : Z;
    currencies : list string;
    languages : list string
  }.
End Destination.

Module Weather.
Record t : Type := Build {
    location : string;
    temperature_celsius : spec_float;
    weather_description : string;
    humidity : Z;
    wind_speed_kmh : spec_float
  }.
End Weather.

Module TravelSummary.
Record t : Type := Build {
    country_code : string;
    country_name : string;
    capital : string;
    region : string;
    population : Z;
    currencies : list string;
    languages : list string;
    current_weather : Weather.t;
    travel_tips : list string;
    best_time_to_visit : string
  }.
End TravelSummary.

Module TravelRequest.
Record t : Type := Build { country_code : option string }.
End TravelRequest.

Module TravelByNameRequest.
Record t : Type := Build { country_name : string }.
End TravelByNameRequest.

Module CountryCodeResponse.
Record t : Type := Build { country_code : string; country_name : string }.
End CountryCodeResponse.

(** ** Field validation of the pydantic models

    The models validate their fields when they are built.  What pydantic
    does with a value of another JSON type than the annotated one (a
    numeric string or an integral float for an [int] field, an integer
    out of range for a [float] field) depends on its version and mode, so
    the validation of the [int] and [float] fields is a parameter of the
    development: any two functions that accept the integer 0, as every
    version does, for the defaults [current.get(k, 0)] and
    [country.get("population", 0)]. *)
Class pydantic : Type := {
  validate_int : json -> option Z;
  validate_float : json -> option spec_float;
  validate_int_zero : validate_int (JNum 0) = Some 0%Z;
  validate_float_zero : validate_float (JNum 0) = Some (float_of_Z 0)
}.

(** One such validation, with which the examples run: a JSON integer for
    an [int] field; a JSON float, or an integer that binary64 holds
    exactly, for a [float] field. *)
Definition sample_pydantic : pydantic :=
  {| validate_int := fun j => match j with JNum z => Some z | _ => None end;
     validate_float := fun j =>
       match j with
       | JFloat f => Some f
       | JNum z => if (Z.abs z <=? 2 ^ 53)%Z then Some (float_of_Z z) else None
       | _ => None
       end;
     validate_int_zero := eq_refl;
     validate_float_zero := eq_refl |}.

Section Service.

Context {validators : pydantic}.

(** A [str] field takes a string, and a list of strings field a list of
    them. *)
Definition as_str (j : json) : outcome string :=
  match j with JStr s => Ret s | _ => Raise ValidationError end.

Definition as_int (j : json) : outcome Z :=
  match validate_int j with Some z => Ret z | None => Raise ValidationError end.

Definition as_float (j : json) : outcome spec_float :=
  match validate_float j with Some f => Ret f | None => Raise ValidationError end.

Definition as_str_list (l : list json) : outcome (list string) := for_each as_str l.

(** ** The upstream services *)

(** The requests [main.py] sends, by URL and parameters. *)
Inductive request : Type :=
| GET_alpha_codes (codes : string)       (* REST_COUNTRIES_API/alpha?codes=... *)
| GET_alpha (code : string)              (* REST_COUNTRIES_API/alpha/{code} *)
| GET_name (name : string)               (* REST_COUNTRIES_API/name/{name} *)
| GET_geocoding_search (name : string)   (* GEOCODING_API/search, count=1 *)
| GET_forecast (lat lon : json).         (* OPEN_METEO_API/forecast, current=... *)

(** What [client.get], [raise_for_status] and [response.json] make of a
    request: an [httpx.HTTPError] that is not a status error (with its
    [str(e)]), an [httpx.HTTPStatusError] (with the status code and its
    [str(e)]), a decoded body, or a body that is not JSON. *)
Inductive reply : Type :=
| TransportError (msg : string)
| StatusError (status_code : Z) (msg : string)
| Body (data : json)
| NotJson.

Definition world : Type := request -> reply.

(** A handler: it reads the world, logs the requests it sends in order,
    and ends with an outcome. *)
Definition M (A : Type) : Type := world -> list request * outcome A.

Definition lift {A} (o : outcome A) : M A := fun _ => ([], o).

Definition mbind {A B} (m : M A) (k : A -> M B) : M B :=
  fun w =>
    match m w with
    | (t1, Ret a) => let (t2, r) := k a w in ((t1 ++ t2)%list, r)
    | (t1, HTTPException c d) => (t1, HTTPException c d)
    | (t1, Raise e) => (t1, Raise e)
    end.

Notation "x <-- m ;; k" := (mbind m (fun x => k))
  (at level 61, m at next level, right associativity).

(** [await client.get(...)] followed by [raise_for_status] and [json]. *)
Definition http_get (r : request) : M reply := fun w => ([r], Ret (w r)).

(** The requests a handler sent and the outcome it ended with. *)
Definition trace {A} (m : M A) (w : world) : list request := fst (m w).
Definition result {A} (m : M A) (w : world) : outcome A := snd (m w).

Definition popular_codes : list string :=
  ["JP"; "FR"; "IT"; "ES"; "TH"; "AU"; "GB"; "DE"; "NZ"; "CA"].

(** ** The country directory client *)

(** [get_destinations] (GET /destinations). *)
Definition get_destinations : M (list Destination.t) :=
  r <-- http_get (GET_alpha_codes (join "," popular_codes)) ;;
  match r with
  | TransportError e | StatusError _ e =>
      lift (HTTPException 503 ("Failed to fetch country data: " ++ e))
  | NotJson => lift (Raise JSONDecodeError)
  | Body countries_data =>
      lift (
        countries <- py_iter countries_data ;;
        for_each (fun country =>
          c <- py_get country "currencies" JNull ;;
          currencies <- (if truthy c
                         then d <- py_get country "currencies" (JObj []) ;; py_keys d
                         else Ret [JStr "N/A"]) ;;
          l <- py_get country "languages" JNull ;;
          languages <- (if truthy l
                        then d <- py_get country "languages" (JObj []) ;; py_values d
                        else Ret [JStr "N/A"]) ;;
          p <- py_get country "capital" JNull ;;
          capital <- (if truthy p
                      then d <- py_get country "capital" (JArr [JStr "N/A"]) ;; py_index0 d
                      else Ret (JStr "N/A")) ;;
          cca2 <- py_get country "cca2" (JStr "") ;;
          name <- py_get country "name" (JObj []) ;;
          common <- py_get name "common" (JStr "Unknown") ;;
          region <- py_get country "region" (JStr "Unknown") ;;
          population <- py_get country "population" (JNum 0) ;;
          country_code <- as_str cca2 ;;
          country_name <- as_str common ;;
          capital <- as_str capital ;;
          region <- as_str region ;;
          population <- as_int population ;;
          currencies <- as_str_list currencies ;;
          languages <- as_str_list languages ;;
          Ret (Destination.Build country_code country_name capital region
                 population currencies languages))
          countries)
  end.

(** The test of the two search loops: a case-insensitive partial match,
    in either direction. *)
Definition name_matches (country_name : string) (dest : Destination.t) : bool :=
  contains (lower country_name) (lower (Destination.country_name dest))
  || contains (lower (Destination.country_name dest)) (lower country_name).

(** The hint of the two 404 messages:
    [', '.join([d.country_name for d in destinations[:5]])]. *)
Definition first_names (destinations : list Destination.t) : string :=
  join ", " (map Destination.country_name (py_slice_to 5 destinations)).

(** [search_destination_by_name] (GET /destinations/search). *)
Definition search_destination_by_name (country : string) : M CountryCodeResponse.t :=
  let country_name := country in
  destinations <-- get_destinations ;;
  match find (name_matches country_name) destinations with
  | Some dest =>
      lift (Ret (CountryCodeResponse.Build (Destination.country_code dest)
                   (Destination.country_name dest)))
  | None =>
      let not_found : M CountryCodeResponse.t :=
        lift (HTTPException 404
                ("Country '" ++ country_name ++ "' not found. Try: "
                 ++ first_names destinations ++ "...")) in
      r <-- http_get (GET_name country_name) ;;
      match r with
      | TransportError _ | StatusError _ _ => not_found
      | NotJson => lift (Raise JSONDecodeError)
      | Body countries =>
          if truthy countries then
            nonempty <-- lift (py_len_pos countries) ;;
            if (nonempty : bool) then
              lift (
                country <- py_index0 countries ;;
                cca2 <- py_get country "cca2" (JStr "") ;;
                name <- py_get country "name" (JObj []) ;;
                common <- py_get name "common" (JStr "Unknown") ;;
                country_code <- as_str cca2 ;;
                country_name <- as_str common ;;
                Ret (CountryCodeResponse.Build country_code country_name))
            else not_found
          else not_found
      end
  end.

(** [get_destination_info] (GET /destinations/{country_code}). *)
Definition get_destination_info (country_code : string) : M Destination.t :=
  r <-- http_get (GET_alpha (upper country_code)) ;;
  match r with
  | StatusError status e =>
      if (status =? 404)%Z
      then lift (HTTPException 404 ("Country " ++ country_code ++ " not found"))
      else lift (HTTPException 503 ("Failed to fetch country data: " ++ e))
  | TransportError e =>
      lift (HTTPException 503 ("Failed to fetch country data: " ++ e))
  | NotJson => lift (Raise JSONDecodeError)
  | Body country_data =>
      lift (
        country_data <- (match country_data with
                         | JArr _ => py_index0 country_data
                         | _ => Ret country_data
                         end) ;;
        c <- py_get country_data "currencies" JNull ;;
        currencies <- (if truthy c
                       then d <- py_get country_data "currencies" (JObj []) ;; py_keys d
                       else Ret [JStr "N/A"]) ;;
        l <- py_get country_data "languages" JNull ;;
        languages <- (if truthy l
                      then d <- py_get country_data "languages" (JObj []) ;; py_values d
                      else Ret [JStr "N/A"]) ;;
        p <- py_get country_data "capital" JNull ;;
        capital <- (if truthy p
                    then d <- py_get country_data "capital" (JArr [JStr "N/A"]) ;; py_index0 d
                    else Ret (JStr "N/A")) ;;
        cca2 <- py_get country_data "cca2" (JStr "") ;;
        name <- py_get country_data "name" (JObj []) ;;
        common <- py_get name "common" (JStr "Unknown") ;;
        region <- py_get country_data "region" (JStr "Unknown") ;;
        population <- py_get country_data "population" (JNum 0) ;;
        country_code <- as_str cca2 ;;
        country_name <- as_str common ;;
        capital <- as_str capital ;;
        region <- as_str region ;;
        population <- as_int population ;;
        currencies <- as_str_list currencies ;;
        languages <- as_str_list languages ;;
        Ret (Destination.Build country_code country_name capital region
               population currencies languages))
  end.

(** ** The geocoding client *)

(** [get_coordinates]: the pair [(latitude, longitude)], [None] being
    [JNull]. *)
Definition get_coordinates (city country_code : string) : M (json * json) :=
  r <-- http_get (GET_geocoding_search city) ;;
  match r with
  | TransportError _ | StatusError _ _ => lift (Ret (JNull, JNull))
  | NotJson => lift (Raise JSONDecodeError)
  | Body data =>
      lift (
        results <- py_get data "results" JNull ;;
        if truthy results then
          rs <- py_item data "results" ;;
          result <- py_index0 rs ;;
          latitude <- py_item result "latitude" ;;
          longitude <- py_item result "longitude" ;;
          Ret (latitude, longitude)
        else Ret (JNull, JNull))
  end.

(** ** The weather client *)

Definition weather_codes : list (Z * string) :=
  [ (0, "Clear sky"); (1, "Mainly clear"); (2, "Partly cloudy"); (3, "Overcast");
    (45, "Foggy"); (48, "Depositing rime fog"); (51, "Light drizzle"); (53, "Moderate drizzle");
    (55, "Dense drizzle"); (61, "Slight rain"); (63, "Moderate rain"); (65, "Heavy rain");
    (71, "Slight snow"); (73, "Moderate snow"); (75, "Heavy snow"); (80, "Slight rain showers");
    (81, "Moderate rain showers"); (82, "Violent rain showers"); (95, "Thunderstorm") ]%Z.

(** [weather_codes.get(code, "Unknown")] for an integer [code]. *)
Definition describe_code (code : Z) : string :=
  match int_dict_get weather_codes code with
  | Some description => description
  | None => "Unknown"
  end.

(** The integer key a decoded JSON value is equal to as a [dict] key, if
    any ([True == 1], [1.0 == 1]); lists and objects are not hashable. *)
Definition py_int_key (j : json) : outcome (option Z) :=
  match j with
  | JNum z => Ret (Some z)
  | JBool b => Ret (Some (if b then 1 else 0)%Z)
  | JFloat f => Ret (Z_of_float f)
  | JNull | JStr _ => Ret None
  | JArr _ | JObj _ => Raise TypeError
  end.

(** [weather_codes.get(weather_code, "Unknown")]. *)
Definition weather_codes_get (weather_code : json) : outcome string :=
  k <- py_int_key weather_code ;;
  Ret (match k with Some code => describe_code code | None => "Unknown" end).

(** [get_weather_for_location]. *)
Definition get_weather_for_location (lat lon : json) (location_name : string)
  : M Weather.t :=
  r <-- http_get (GET_forecast lat lon) ;;
  match r with
  | TransportError e | StatusError _ e =>
      lift (HTTPException 503 ("Failed to fetch weather data: " ++ e))
  | NotJson => lift (Raise JSONDecodeError)
  | Body data =>
      lift (
        current <- py_get data "current" (JObj []) ;;
        weather_code <- py_get current "weather_code" (JNum 0) ;;
        temperature <- py_get current "temperature_2m" (JNum 0) ;;
        description <- weather_codes_get weather_code ;;
        humidity <- py_get current "relative_humidity_2m" (JNum 0) ;;
        wind_speed <- py_get current "wind_speed_10m" (JNum 0) ;;
        temperature_celsius <- as_float temperature ;;
        humidity <- as_int humidity ;;
        wind_speed_kmh <- as_float wind_speed ;;
        Ret (Weather.Build location_name temperature_celsius description
               humidity wind_speed_kmh))
  end.

(** ** The enrichment engine *)

Definition region_tips : list (string * string) :=
  [ ("Europe", "Consider getting a travel adapter for EU plugs");
    ("Asia", "Learn a few local phrases - it's appreciated!");
    ("Oceania", "Don't forget reef-safe sunscreen for beach visits");
    ("Americas", "Check visa requirements before traveling");
    ("Africa", "Consult a travel health clinic for vaccinations") ].

(** [generate_travel_tips]; [tips.append(x)] is [tips ++ [x]]. *)
Definition generate_travel_tips (country_name region : string) (weather : Weather.t)
  : list string :=
  let tips := [] in
  let tips :=
    if SFltb (float_of_Z 30) (Weather.temperature_celsius weather) then
      let tips := py_append tips "Pack light, breathable clothing - it's hot!" in
      py_append tips "Stay hydrated and use sunscreen"
    else if SFltb (Weather.temperature_celsius weather) (float_of_Z 10) then
      let tips := py_append tips "Bring warm layers - it's cold!" in
      py_append tips "Pack a good jacket and warm accessories"
    else
      py_append tips "Weather is mild - pack versatile clothing" in
  let tips :=
    if contains "rain" (lower (Weather.weather_description weather))
       || contains "drizzle" (lower (Weather.weather_description weather))
    then py_append tips "Bring an umbrella or rain jacket"
    else tips in
  let tips :=
    match dict_get region_tips region with
    | Some tip => py_append tips tip
    | None => tips
    end in
  py_append tips ("Research local customs and etiquette for " ++ country_name).

Definition best_times : list (string * string) :=
  [ ("JP", "March-May (cherry blossoms) or October-November (autumn colors)");
    ("FR", "April-June or September-October for mild weather");
    ("IT", "April-June or September-October to avoid crowds");
    ("ES", "March-May or September-November for pleasant weather");
    ("TH", "November-February (cool and dry season)");
    ("AU", "September-November (spring) or March-May (autumn)");
    ("GB", "May-September for warmer weather");
    ("DE", "May-September for outdoor activities");
    ("NZ", "December-February (summer) for best weather");
    ("CA", "June-August for summer, December-March for skiing") ].

(** [get_best_time_to_visit]. *)
Definition get_best_time_to_visit (region country_code : string) : string :=
  match dict_get best_times country_code with
  | Some best => best
  | None => "Research the best season for " ++ region
  end.

(** ** The aggregation handlers *)

Definition is_None (j : json) : bool :=
  match j with JNull => true | _ => false end.

(** [get_travel_summary_by_name] (POST /travel-summary-by-name). *)
Definition get_travel_summary_by_name (request : TravelByNameRequest.t)
  : M TravelSummary.t :=
  let country_name := strip (TravelByNameRequest.country_name request) in
  destinations <-- get_destinations ;;
  match find (name_matches country_name) destinations with
  | None =>
      lift (HTTPException 404
              ("Country '" ++ country_name
               ++ "' not found in destinations. Available countries: "
               ++ first_names destinations ++ "..."))
  | Some matching_country =>
      let country_code := Destination.country_code matching_country in
      destination <-- get_destination_info country_code ;;
      coordinates <-- get_coordinates (Destination.capital destination) country_code ;;
      let (lat, lon) := (coordinates : json * json) in
      if is_None lat || is_None lon then
        lift (HTTPException 503
                ("Could not find coordinates for " ++ Destination.capital destination))
      else
        weather <-- get_weather_for_location lat lon (Destination.capital destination) ;;
        let tips := generate_travel_tips (Destination.country_name destination)
                      (Destination.region destination) weather in
        let best_time := get_best_time_to_visit (Destination.region destination)
                           country_code in
        lift (Ret (TravelSummary.Build
                     (Destination.country_code destination)
                     (Destination.country_name destination)
                     (Destination.capital destination)
                     (Destination.region destination)
                     (Destination.population destination)
                     (Destination.currencies destination)
                     (Destination.languages destination)
                     weather tips best_time))
  end.

(** [get_travel_summary] (POST /travel-summary). *)
Definition get_travel_summary (request : TravelRequest.t) : M TravelSummary.t :=
  match TravelRequest.country_code request with
  | None | Some EmptyString =>
      lift (HTTPException 400 "country_code is required")
  | Some code =>
      let country_code := upper code in
      destination <-- get_destination_info country_code ;;
      coordinates <-- get_coordinates (Destination.capital destination) country_code ;;
      let (lat, lon) := (coordinates : json * json) in
      if is_None lat || is_None lon then
        lift (HTTPException 503
                ("Could not find coordinates for " ++ Destination.capital destination))
      else
        weather <-- get_weather_for_location lat lon (Destination.capital destination) ;;
        let tips := generate_travel_tips (Destination.country_name destination)
                      (Destination.region destination) weather in
        let best_time := get_best_time_to_visit (Destination.region destination)
                           country_code in
        lift (Ret (TravelSummary.Build
                     (Destination.country_code destination)
                     (Destination.country_name destination)
                     (Destination.capital destination)
                     (Destination.region destination)
                     (Destination.population destination)
                     (Destination.currencies destination)
                     (Destination.languages destination)
                     weather tips best_time))
  end.

(** ** Vocabulary of the specification *)

(** [needle] occurs in [hay] when letter case is ignored: some contiguous
    block of [hay] is [needle] up to case. *)
Definition occurs_ci (needle hay : string) : Prop :=
  exists pre mid post, hay = pre ++ mid ++ post /\ lower mid = lower needle.

(** Case-insensitive substring match in either direction. *)
Definition partial_match_ci (a b : string) : Prop :=
  occurs_ci a b \/ occurs_ci b a.

(** A string of white space only. *)
Fixpoint all_space (s : string) : bool :=
  match s with
  | EmptyString => true
  | String c s' => is_space c && all_space s'
  end.

(** The keys of a literal table. *)
Definition keys {K V} (d : list (K * V)) : list K := map fst d.

(** The pipeline of the specification (section 4.5): fetch the country by
    its code, geocode the capital, fail with 503 when the coordinates are
    absent, fetch the weather, enrich, respond. *)
Definition summary_pipeline (country_code : string) : M TravelSummary.t :=
  destination <-- get_destination_info country_code ;;
  coordinates <-- get_coordinates (Destination.capital destination) country_code ;;
  let (lat, lon) := (coordinates : json * json) in
  if is_None lat || is_None lon then
    lift (HTTPException 503
            ("Could not find coordinates for " ++ Destination.capital destination))
  else
    weather <-- get_weather_for_location lat lon (Destination.capital destination) ;;
    lift (Ret (TravelSummary.Build
                 (Destination.country_code destination)
                 (Destination.country_name destination)
                 (Destination.capital destination)
                 (Destination.region destination)
                 (Destination.population destination)
                 (Destination.currencies destination)
                 (Destination.languages destination)
                 weather
                 (generate_travel_tips (Destination.country_name destination)
                    (Destination.region destination) weather)
                 (get_best_time_to_visit (Destination.region destination)
                    country_code))).

(** The value [d.get(k)] has when [k] is absent is [None]. *)
Definition field (kv : list (string * json)) (k : string) : json :=
  match dict_get kv k with Some v => v | None => JNull end.



(** The value of [current.get(k, 0)]. *)
Definition or_zero (current : list (string * json)) (k : string) : json :=
  match dict_get current k with Some v => v | None => JNum 0 end.

(** The step from a record of the country directory to a [Destination],
    which [get_destinations] (lines 101-113) and [get_destination_info]
    (lines 178-190) both spell out. *)
Definition destination_of_record (country : json) : outcome Destination.t :=
  c <- py_get country "currencies" JNull ;;
  currencies <- (if truthy c
                 then d <- py_get country "currencies" (JObj []) ;; py_keys d
                 else Ret [JStr "N/A"]) ;;
  l <- py_get country "languages" JNull ;;
  languages <- (if truthy l
                then d <- py_get country "languages" (JObj []) ;; py_values d
                else Ret [JStr "N/A"]) ;;
  p <- py_get country "capital" JNull ;;
  capital <- (if truthy p
              then d <- py_get country "capital" (JArr [JStr "N/A"]) ;; py_index0 d
              else Ret (JStr "N/A")) ;;
  cca2 <- py_get country "cca2" (JStr "") ;;
  name <- py_get country "name" (JObj []) ;;
  common <- py_get name "common" (JStr "Unknown") ;;
  region <- py_get country "region" (JStr "Unknown") ;;
  population <- py_get country "population" (JNum 0) ;;
  country_code <- as_str cca2 ;;
  country_name <- as_str common ;;
  capital <- as_str capital ;;
  region <- as_str region ;;
  population <- as_int population ;;
  currencies <- as_str_list currencies ;;
  languages <- as_str_list languages ;;
  Ret (Destination.Build country_code country_name capital region
         population currencies languages).

(** The record [get_destination_info] reads in a body: the body when it
    is an object, its first element when it is a list. *)
Definition directory_record (data : json) : option (list (string * json)) :=
  match data with
  | JObj kv => Some kv
  | JArr (JObj kv :: _) => Some kv
  | _ => None
  end.

(** The country directory answers the lookup of [code] with a record of
    that code: the "cca2" of the record is [code], up to letter case. *)
Definition directory_echoes (w : world) (code : string) : Prop :=
  forall data kv,
    w (GET_alpha (upper code)) = Body data ->
    directory_record data = Some kv ->
    exists c, dict_get kv "cca2" = Some (JStr c) /\ upper c = upper code.

(** ** Sample records and worlds *)


(** A world whose weather service answers the body [data]. *)
Definition forecast_world (data : json) : world :=
  fun r =>
    match r with
    | GET_forecast _ _ => Body data
    | _ => NotJson
    end.

(** A record of the country directory, for Japan. *)
Definition japan_record : json :=
  JObj [ ("name", JObj [("common", JStr "Japan"); ("official", JStr "Japan")]);
         ("cca2", JStr "JP");
         ("currencies", JObj [("JPY", JObj [("name", JStr "Japanese yen")])]);
         ("capital", JArr [JStr "Tokyo"]);
         ("region", JStr "Asia");
         ("languages", JObj [("jpn", JStr "Japanese")]);
         ("population", JNum 125836021) ].

(** A world whose country directory knows Japan only, and whose
    geocoding and weather services answer [geocoding] and [forecast]. *)
Definition japan_world (geocoding forecast : reply) : world :=
  fun r =>
    match r with
    | GET_alpha_codes _ => Body (JArr [japan_record])
    | GET_alpha code => if String.eqb code "JP" then Body (JArr [japan_record])
                        else StatusError 404 "Client error '404 Not Found'"
    | GET_name _ => StatusError 404 "Client error '404 Not Found'"
    | GET_geocoding_search _ => geocoding
    | GET_forecast _ _ => forecast
    end.

(** The [Destination] built from [japan_record]. *)
Definition japan : Destination.t :=
  Destination.Build "JP" "Japan" "Tokyo" "Asia" 125836021 ["JPY"] ["Japanese"].

(** Answers of the geocoding service for Tokyo (35.6895, 139.69171) and of
    the weather service on a rainy day at 5 degrees. *)
Definition tokyo_geocoding : reply :=
  Body (JObj [("results",
               JArr [JObj [("name", JStr "Tokyo");
                           ("latitude", JFloat (S754_finite false 5022850590657479 (-47)));
                           ("longitude", JFloat (S754_finite false 4914965102365214 (-45)))]])]).

Definition rainy_forecast : reply :=
  Body (JObj [("current",
               JObj [("temperature_2m", JNum 5);
                     ("relative_humidity_2m", JNum 60);
                     ("weather_code", JNum 61);
                     ("wind_speed_10m", JFloat (S754_finite false 5967269506265907 (-50)))])]).

(** The summary for Japan in [japan_world tokyo_geocoding rainy_forecast]. *)
Definition japan_summary : TravelSummary.t :=
  TravelSummary.Build "JP" "Japan" "Tokyo" "Asia" 125836021 ["JPY"] ["Japanese"]
    (Weather.Build "Tokyo" (float_of_Z 5) "Slight rain" 60
       (S754_finite false 5967269506265907 (-50)))
    ["Bring warm layers - it's cold!";
     "Pack a good jacket and warm accessories";
     "Bring an umbrella or rain jacket";
     "Learn a few local phrases - it's appreciated!";
     "Research local customs and etiquette for Japan"]
    "March-May (cherry blossoms) or October-November (autumn colors)".




(** A record for Japan that carries no "cca2", the world whose country
    directory answers it, and the [Destination] built from it. *)
Definition japan_record_without_code : json :=
  JObj [ ("name", JObj [("common", JStr "Japan")]);
         ("capital", JArr [JStr "Tokyo"]);
         ("region", JStr "Asia") ].

Definition codeless_world : world :=
  fun r =>
    match r with
    | GET_alpha _ => Body (JArr [japan_record_without_code])
    | _ => NotJson
    end.

Definition japan_without_code : Destination.t :=
  Destination.Build "" "Japan" "Tokyo" "Asia" 0 ["N/A"] ["N/A"].

(** ** Vocabulary for the other properties of the code *)

(** The name search of the country directory found nothing: the call
    failed with a transport or HTTP status error, or the body is falsy
    (an empty list). *)
Definition name_search_empty (r : reply) : bool :=
  match r with
  | TransportError _ | StatusError _ _ => true
  | Body countries => negb (truthy countries)
  | NotJson => false
  end.

(** The weather codes whose description mentions rain or drizzle. *)
Definition rainy_codes : list Z := [51; 53; 55; 61; 63; 65; 80; 81; 82]%Z.

(** An outcome that is not an [HTTPException]. *)
Definition no_http {A} (o : outcome A) : Prop :=
  forall c d, o <> HTTPException c d.

(** A world given by the answer of each service. *)
Definition service_world (codes alpha name geocoding forecast : reply) : world :=
  fun r =>
    match r with
    | GET_alpha_codes _ => codes
    | GET_alpha _ => alpha
    | GET_name _ => name
    | GET_geocoding_search _ => geocoding
    | GET_forecast _ _ => forecast
    end.

(** A record of the country directory, for France, and its
    [Destination]. *)
Definition france_record : json :=
  JObj [ ("name", JObj [("common", JStr "France")]);
         ("cca2", JStr "FR");
         ("currencies", JObj [("EUR", JObj [("name", JStr "Euro")])]);
         ("capital", JArr [JStr "Paris"]);
         ("region", JStr "Europe");
         ("languages", JObj [("fra", JStr "French")]);
         ("population", JNum 67391582) ].

Definition france : Destination.t :=
  Destination.Build "FR" "France" "Paris" "Europe" 67391582 ["EUR"] ["French"].

(** * Properties *)

(** ** Strings *)

Lemma append_nil_r (s : string) : s ++ "" = s.
Proof. induction s as [|c s IH]; simpl; [reflexivity | now rewrite IH]. Qed.

Lemma append_assoc (a b c : string) : (a ++ b) ++ c = a ++ (b ++ c).
Proof. induction a as [|x a IH]; simpl; [reflexivity | now rewrite IH]. Qed.

Lemma map_string_app f (a b : string) :
  map_string f (a ++ b) = map_string f a ++ map_string f b.
Proof. induction a as [|x a IH]; simpl; [reflexivity | now rewrite IH]. Qed.

Lemma map_string_split f (a b s : string) :
  map_string f s = a ++ b ->
  exists s1 s2, s = s1 ++ s2 /\ map_string f s1 = a /\ map_string f s2 = b.
Proof.
  revert s; induction a as [|x a IH]; intros s H.
  - exists "", s. simpl in *. auto.
  - destruct s as [|c s]; simpl in H; [discriminate|].
    injection H as Hc Hs. destruct (IH _ Hs) as (s1 & s2 & -> & H1 & H2).
    exists (String c s1), s2. simpl. now rewrite Hc, H1.
Qed.

Lemma prefix_iff (a s : string) :
  prefix a s = true <-> exists post, s = a ++ post.
Proof.
  revert a; induction s as [|c s IH]; intros [|x a]; simpl.
  - split; [exists ""; reflexivity | reflexivity].
  - split; [discriminate | intros [post H]; discriminate].
  - split; [exists (String c s); reflexivity | reflexivity].
  - destruct (ascii_dec x c) as [->|Hne].
    + rewrite IH. split; intros [post H]; exists post.
      * now rewrite H.
      * now injection H.
    + split; [discriminate | intros [post H]; injection H; congruence].
Qed.

Lemma contains_iff (sub s : string) :
  contains sub s = true <-> exists pre post, s = pre ++ sub ++ post.
Proof.
  split.
  - induction s as [|c s IH]; cbn [contains]; rewrite orb_true_iff; intros [H|H].
    + apply prefix_iff in H as [post H]. now exists "", post.
    + discriminate.
    + apply prefix_iff in H as [post H]. now exists "", post.
    + destruct (IH H) as (pre & post & ->). now exists (String c pre), post.
  - intros (pre & post & ->). induction pre as [|c pre IH].
    + assert (P : prefix sub (sub ++ post) = true)
        by (apply prefix_iff; now exists post).
      cbn [String.append]. destruct (sub ++ post); cbn [contains]; now rewrite P.
    + cbn [String.append contains]. rewrite IH. apply orb_true_r.
Qed.

(** The test [needle.lower() in hay.lower()] decides [occurs_ci]. *)
Lemma contains_lower_iff (needle hay : string) :
  contains (lower needle) (lower hay) = true <-> occurs_ci needle hay.
Proof.
  rewrite contains_iff. unfold occurs_ci, lower. split.
  - intros (pre & post & H).
    apply map_string_split in H as (s1 & s23 & -> & H1 & H23).
    apply map_string_split in H23 as (s2 & s3 & -> & H2 & H3).
    now exists s1, s2, s3.
  - intros (pre & mid & post & -> & H).
    exists (map_string lower_ascii pre), (map_string lower_ascii post).
    now rewrite !map_string_app, H.
Qed.

Lemma name_matches_iff (country_name : string) (dest : Destination.t) :
  name_matches country_name dest = true
  <-> partial_match_ci country_name (Destination.country_name dest).
Proof.
  unfold name_matches, partial_match_ci.
  now rewrite orb_true_iff, !contains_lower_iff.
Qed.

(** ** The enrichment engine *)

(** No temperature is both above 30 and below 10. *)
Lemma bands_exclusive (t : spec_float) :
  SFltb (float_of_Z 30) t = true -> SFltb t (float_of_Z 10) = true -> False.
Proof.
  change (float_of_Z 30) with (S754_finite false 8444249301319680 (-48)).
  change (float_of_Z 10) with (S754_finite false 5629499534213120 (-49)).
  unfold SFltb, SFcompare.
  destruct t as [s|s| |s m e]; try destruct s; try discriminate.
  destruct (Z.compare_spec (-48) e), (Z.compare_spec e (-49));
    try discriminate; lia.
Qed.

Lemma rain_test_iff (d : string) :
  contains "rain" (lower d) || contains "drizzle" (lower d) = true
  <-> occurs_ci "rain" d \/ occurs_ci "drizzle" d.
Proof.
  rewrite orb_true_iff.
  change "rain" with (lower "rain") at 1.
  change "drizzle" with (lower "drizzle") at 1.
  now rewrite !contains_lower_iff.
Qed.

Lemma region_tips_miss (region : string) :
  ~ In region ["Europe"; "Asia"; "Oceania"; "Americas"; "Africa"] ->
  dict_get region_tips region = None.
Proof.
  intros H. unfold region_tips, dict_get.
  repeat match goal with
  | |- context [String.eqb region ?k] =>
      destruct (String.eqb_spec region k) as [->|_];
      [exfalso; apply H; simpl; tauto|]
  end.
  reflexivity.
Qed.

(** C1: [generate_travel_tips] returns, in this order, one
    temperature-band group (two heat tips above 30, two cold tips below
    10, one mild tip otherwise, the two conditions excluding each other),
    the umbrella tip exactly when the description contains "rain" or
    "drizzle" whatever the letter case, the tip of the region exactly when
    the region is one of the five keys of the table, and last the customs
    tip for the country name.  At 5 degrees, "Slight rain", "Asia",
    "Japan" it returns the two cold tips, the umbrella tip, the Asia tip
    and the customs tip for Japan. *)
Theorem travel_tips_composition :
  (forall (country_name region : string) (weather : Weather.t),
     let t := Weather.temperature_celsius weather in
     let d := Weather.weather_description weather in
     exists band umbrella regional : list string,
       generate_travel_tips country_name region weather
       = (band ++ umbrella ++ regional
          ++ [("Research local customs and etiquette for " ++ country_name)%string])%list
       /\ (SFltb (float_of_Z 30) t = true ->
           band = ["Pack light, breathable clothing - it's hot!";
                   "Stay hydrated and use sunscreen"])
       /\ (SFltb t (float_of_Z 10) = true ->
           band = ["Bring warm layers - it's cold!";
                   "Pack a good jacket and warm accessories"])
       /\ (SFltb (float_of_Z 30) t = false -> SFltb t (float_of_Z 10) = false ->
           band = ["Weather is mild - pack versatile clothing"])
       /\ ~ (SFltb (float_of_Z 30) t = true /\ SFltb t (float_of_Z 10) = true)
       /\ (occurs_ci "rain" d \/ occurs_ci "drizzle" d ->
           umbrella = ["Bring an umbrella or rain jacket"])
       /\ (~ (occurs_ci "rain" d \/ occurs_ci "drizzle" d) -> umbrella = [])
       /\ (region = "Europe" ->
           regional = ["Consider getting a travel adapter for EU plugs"])
       /\ (region = "Asia" ->
           regional = ["Learn a few local phrases - it's appreciated!"])
       /\ (region = "Oceania" ->
           regional = ["Don't forget reef-safe sunscreen for beach visits"])
       /\ (region = "Americas" ->
           regional = ["Check visa requirements before traveling"])
       /\ (region = "Africa" ->
           regional = ["Consult a travel health clinic for vaccinations"])
       /\ (~ In region ["Europe"; "Asia"; "Oceania"; "Americas"; "Africa"] ->
           regional = []))
  /\ (forall (location : string) (humidity : Z) (wind_speed_kmh : spec_float),
       generate_travel_tips "Japan" "Asia"
         (Weather.Build location (float_of_Z 5) "Slight rain" humidity wind_speed_kmh)
       = ["Bring warm layers - it's cold!";
          "Pack a good jacket and warm accessories";
          "Bring an umbrella or rain jacket";
          "Learn a few local phrases - it's appreciated!";
          "Research local customs and etiquette for Japan"]).
Proof.
  split; [|reflexivity].
  intros country_name region weather t d.
  exists (if SFltb (float_of_Z 30) t
          then ["Pack light, breathable clothing - it's hot!";
                "Stay hydrated and use sunscreen"]
          else if SFltb t (float_of_Z 10)
               then ["Bring warm layers - it's cold!";
                     "Pack a good jacket and warm accessories"]
               else ["Weather is mild - pack versatile clothing"]),
         (if contains "rain" (lower d) || contains "drizzle" (lower d)
          then ["Bring an umbrella or rain jacket"] else []),
         (match dict_get region_tips region with
          | Some tip => [tip]
          | None => []
          end).
  pose proof (bands_exclusive t) as Hex.
  pose proof (rain_test_iff d) as Hrain.
  split; [|repeat split].
  - unfold generate_travel_tips, py_append. fold t d.
    destruct (SFltb (float_of_Z 30) t), (SFltb t (float_of_Z 10)),
      (contains "rain" (lower d) || contains "drizzle" (lower d)),
      (dict_get region_tips region); reflexivity.
  - now intros ->.
  - intros H. destruct (SFltb (float_of_Z 30) t); [exfalso; now apply Hex|].
    now rewrite H.
  - now intros -> ->.
  - intros [H1 H2]. now apply Hex.
  - intros H. apply Hrain in H. now rewrite H.
  - intros H.
    destruct (contains "rain" (lower d) || contains "drizzle" (lower d));
      [exfalso; apply H, Hrain; reflexivity | reflexivity].
  - now intros ->.
  - now intros ->.
  - now intros ->.
  - now intros ->.
  - now intros ->.
  - intros H. now rewrite (region_tips_miss region H).
Qed.

(** ** Literal tables *)

Lemma dict_get_notin {V} (d : list (string * V)) (k : string) :
  ~ In k (keys d) -> dict_get d k = None.
Proof.
  induction d as [|[k' v] d IH]; simpl; intros H; [reflexivity|].
  destruct (String.eqb_spec k k') as [->|_]; [tauto|].
  apply IH. tauto.
Qed.

Lemma dict_get_in {V} (d : list (string * V)) (k : string) (v : V) :
  NoDup (keys d) -> In (k, v) d -> dict_get d k = Some v.
Proof.
  induction d as [|[k' v'] d IH]; simpl; intros N H; [tauto|].
  inversion N as [|? ? Hk N']; subst.
  destruct H as [H|H].
  - injection H as -> ->. now rewrite String.eqb_refl.
  - destruct (String.eqb_spec k k') as [->|_].
    + exfalso. apply Hk. unfold keys. now apply (in_map fst) in H.
    + now apply IH.
Qed.

Lemma int_dict_get_notin {V} (d : list (Z * V)) (k : Z) :
  ~ In k (keys d) -> int_dict_get d k = None.
Proof.
  induction d as [|[k' v] d IH]; simpl; intros H; [reflexivity|].
  destruct (Z.eqb_spec k k') as [->|_]; [tauto|].
  apply IH. tauto.
Qed.

Lemma best_times_keys :
  keys best_times = ["JP"; "FR"; "IT"; "ES"; "TH"; "AU"; "GB"; "DE"; "NZ"; "CA"].
Proof. reflexivity. Qed.

Lemma best_times_NoDup : NoDup (keys best_times).
Proof.
  rewrite best_times_keys.
  repeat (constructor; [simpl; intuition discriminate|]). constructor.
Qed.

(** C5: the best-time table has ten codes, all different; for each of
    them [get_best_time_to_visit] returns the string stored for the code,
    whatever the region; for any other code it returns "Research the best
    season for " followed by the region. *)
Theorem best_time_lookup :
  List.length best_times = 10%nat
  /\ NoDup (keys best_times)
  /\ (forall region country_code literal : string,
        In (country_code, literal) best_times ->
        get_best_time_to_visit region country_code = literal)
  /\ (forall region country_code : string,
        ~ In country_code (keys best_times) ->
        get_best_time_to_visit region country_code
        = "Research the best season for " ++ region).
Proof.
  split; [reflexivity|]. split; [exact best_times_NoDup|]. split.
  - intros region code literal H. unfold get_best_time_to_visit.
    now rewrite (dict_get_in _ _ _ best_times_NoDup H).
  - intros region code H. unfold get_best_time_to_visit.
    now rewrite (dict_get_notin _ _ H).
Qed.

(** A use of C5 at a code of the table and at a code outside it. *)
Lemma best_time_lookup_witness :
  get_best_time_to_visit "Asia" "TH" = "November-February (cool and dry season)"
  /\ get_best_time_to_visit "Asia" "VN" = "Research the best season for Asia".
Proof.
  destruct best_time_lookup as (_ & _ & Hin & Hout). split.
  - apply Hin. simpl. tauto.
  - apply Hout. simpl. intuition discriminate.
Defined.

(** ** The weather code table *)

(** C2, as the specification states it, fails: the table does not have
    16 entries. *)
Lemma weather_codes_not_16_entries :
  ~ (List.length weather_codes = 16%nat
     /\ describe_code 0 = "Clear sky"
     /\ (forall code : Z, ~ In code (keys weather_codes) ->
                          describe_code code = "Unknown")).
Proof. intros [H _]. discriminate H. Qed.

(** C2, amended: the translation table of the weather client is a fixed
    table of 19 entries; code 0 is "Clear sky" and every code that is not a
    key of the table, 99 among them, is "Unknown"; this is the description
    the client computes for an integer weather code. *)
Theorem weather_code_table :
  List.length weather_codes = 19%nat
  /\ describe_code 0 = "Clear sky"
  /\ (forall code : Z, ~ In code (keys weather_codes) ->
                       describe_code code = "Unknown")
  /\ ~ In 99%Z (keys weather_codes)
  /\ describe_code 99 = "Unknown"
  /\ (forall code : Z, weather_codes_get (JNum code) = Ret (describe_code code)).
Proof.
  repeat split; try reflexivity.
  - intros code H. unfold describe_code. now rewrite (int_dict_get_notin _ _ H).
  - simpl. intuition discriminate.
Qed.

(** A use of the amended C2 at a code outside the table. *)
Lemma weather_code_table_witness : describe_code 4 = "Unknown".
Proof.
  destruct weather_code_table as (_ & _ & H & _).
  apply H. simpl. intuition discriminate.
Defined.

(** ** Handlers: results and traces *)

Lemma result_mbind {A B} (m : M A) (k : A -> M B) (w : world) :
  result (mbind m k) w = obind (result m w) (fun a => result (k a) w).
Proof.
  unfold result, mbind, obind. destruct (m w) as [t [a|c d|e]]; try reflexivity.
  simpl. now destruct (k a w).
Qed.

Lemma trace_mbind {A B} (m : M A) (k : A -> M B) (w : world) :
  trace (mbind m k) w
  = (trace m w ++ match result m w with
                  | Ret a => trace (k a) w
                  | _ => []
                  end)%list.
Proof.
  unfold result, trace, mbind.
  destruct (m w) as [t [a|c d|e]]; simpl; try now rewrite app_nil_r.
  now destruct (k a w).
Qed.

Lemma run_eq {A} (m : M A) (w : world) : m w = (trace m w, result m w).
Proof. unfold trace, result. now destruct (m w). Qed.

Lemma upper_ascii_idem (c : ascii) : upper_ascii (upper_ascii c) = upper_ascii c.
Proof. destruct c as [[] [] [] [] [] [] [] []]; reflexivity. Qed.

Lemma upper_idem (s : string) : upper (upper s) = upper s.
Proof.
  unfold upper. induction s as [|c s IH]; simpl; [reflexivity|].
  now rewrite upper_ascii_idem, IH.
Qed.

(** With a code that is not empty, [get_travel_summary] is the pipeline
    on the upper-cased code. *)
Lemma get_travel_summary_pipeline (code : string) :
  code <> "" ->
  get_travel_summary (TravelRequest.Build (Some code)) = summary_pipeline (upper code).
Proof.
  intros H. destruct code as [|c s]; [congruence | reflexivity].
Qed.

Lemma mbind_http_error {A B} (m : M A) (k : A -> M B) (w : world) t c d :
  m w = (t, HTTPException c d) -> mbind m k w = (t, HTTPException c d).
Proof. unfold mbind. now intros ->. Qed.

Lemma mbind_ret {A B} (m : M A) (k : A -> M B) (w : world) t a :
  m w = (t, Ret a) -> mbind m k w = ((t ++ trace (k a) w)%list, result (k a) w).
Proof. unfold mbind, trace, result. intros ->. now destruct (k a w). Qed.

Lemma mbind_http_get {B} (r : request) (k : reply -> M B) (w : world) :
  mbind (http_get r) k w = (r :: trace (k (w r)) w, result (k (w r)) w).
Proof. now rewrite (mbind_ret _ _ _ [r] (w r)). Qed.

(** ** The country directory client: an unknown code *)


(** ** The handler of POST /travel-summary: input errors *)


(** ** The geocoding client *)

(** C9: what [get_coordinates] returns does not depend on its
    [country_code] argument: for one city and one answer of the geocoding
    service, two calls with different country codes send the same single
    request, which names the city only, and end with the same outcome. *)
Theorem get_coordinates_ignores_country_code :
  forall (w1 w2 : world) (city country_code1 country_code2 : string),
    w1 (GET_geocoding_search city) = w2 (GET_geocoding_search city) ->
    get_coordinates city country_code1 w1 = get_coordinates city country_code2 w2
    /\ trace (get_coordinates city country_code1) w1 = [GET_geocoding_search city].
Proof.
  intros w1 w2 city cc1 cc2 H. split.
  - unfold get_coordinates. rewrite !mbind_http_get, H.
    now destruct (w2 (GET_geocoding_search city)).
  - unfold trace, get_coordinates. rewrite mbind_http_get. cbn [fst]. f_equal.
    now destruct (w1 (GET_geocoding_search city)).
Qed.

(** A use of C9 with two country codes and two worlds that differ in
    their weather service only. *)
Lemma get_coordinates_ignores_country_code_witness :
  get_coordinates "Tokyo" "JP" (japan_world tokyo_geocoding rainy_forecast)
  = get_coordinates "Tokyo" "FR" (japan_world tokyo_geocoding NotJson).
Proof.
  apply (get_coordinates_ignores_country_code
           (japan_world tokyo_geocoding rainy_forecast)
           (japan_world tokyo_geocoding NotJson) "Tokyo" "JP" "FR").
  reflexivity.
Defined.

(** ** The weather client: missing data *)

Lemma as_int_zero : as_int (JNum 0) = Ret 0%Z.
Proof. unfold as_int. now rewrite validate_int_zero. Qed.

Lemma as_float_zero : as_float (JNum 0) = Ret (float_of_Z 0).
Proof. unfold as_float. now rewrite validate_float_zero. Qed.

Lemma weather_of_body (w : world) (lat lon : json) (location_name : string)
      (data current : list (string * json)) :
  w (GET_forecast lat lon) = Body (JObj data) ->
  match dict_get data "current" with Some c => c | None => JObj [] end
  = JObj current ->
  result (get_weather_for_location lat lon location_name) w
  = (description <- weather_codes_get (or_zero current "weather_code") ;;
     temperature_celsius <- as_float (or_zero current "temperature_2m") ;;
     humidity <- as_int (or_zero current "relative_humidity_2m") ;;
     wind_speed_kmh <- as_float (or_zero current "wind_speed_10m") ;;
     Ret (Weather.Build location_name temperature_celsius description
            humidity wind_speed_kmh)).
Proof.
  intros H Hc.
  unfold result, get_weather_for_location. rewrite mbind_http_get, H.
  cbn [snd]. unfold result, lift, or_zero. cbn [snd py_get obind].
  rewrite Hc. cbn [py_get obind].
  destruct (weather_codes_get _); reflexivity.
Qed.

(** C10: when the weather service answers a body without "current", or
    with a "current" object in which fields are missing, the weather
    client does not fail on that account: each missing field counts as 0.
    Without "current", and with a "current" that has none of the four
    fields, it returns the weather "Clear sky" with temperature, humidity
    and wind speed 0; in general it returns a weather as soon as the
    fields that are present are valid, and in the weather it returns a
    missing weather code gives "Clear sky" and a missing temperature,
    humidity or wind speed gives 0. *)
Theorem weather_missing_data_defaults :
  forall (w : world) (lat lon : json) (location_name : string)
         (data : list (string * json)),
    w (GET_forecast lat lon) = Body (JObj data) ->
    let outcome := result (get_weather_for_location lat lon location_name) w in
    let clear := Weather.Build location_name (float_of_Z 0) "Clear sky" 0 (float_of_Z 0) in
    (dict_get data "current" = None -> outcome = Ret clear)
    /\ (forall current : list (string * json),
          dict_get data "current" = Some (JObj current) ->
          ((forall k, In k ["weather_code"; "temperature_2m";
                            "relative_humidity_2m"; "wind_speed_10m"] ->
                      dict_get current k = None) ->
           outcome = Ret clear)
          /\ (forall description temperature humidity wind_speed,
                weather_codes_get (or_zero current "weather_code") = Ret description ->
                as_float (or_zero current "temperature_2m") = Ret temperature ->
                as_int (or_zero current "relative_humidity_2m") = Ret humidity ->
                as_float (or_zero current "wind_speed_10m") = Ret wind_speed ->
                outcome = Ret (Weather.Build location_name temperature description
                                 humidity wind_speed))
          /\ (forall weather : Weather.t,
                outcome = Ret weather ->
                (dict_get current "weather_code" = None ->
                 Weather.weather_description weather = "Clear sky")
                /\ (dict_get current "temperature_2m" = None ->
                    Weather.temperature_celsius weather = float_of_Z 0)
                /\ (dict_get current "relative_humidity_2m" = None ->
                    Weather.humidity weather = 0%Z)
                /\ (dict_get current "wind_speed_10m" = None ->
                    Weather.wind_speed_kmh weather = float_of_Z 0))).
Proof.
  intros w lat lon location_name data H outcome clear. split.
  - intros Hc. subst outcome.
    rewrite (weather_of_body w lat lon location_name data [] H)
      by now rewrite Hc.
    unfold or_zero. cbn [dict_get]. now rewrite as_float_zero, as_int_zero.
  - intros current Hc. subst outcome.
    rewrite (weather_of_body w lat lon location_name data current H)
      by now rewrite Hc.
    split; [|split].
    + intros Hk. unfold or_zero. rewrite !Hk by (simpl; tauto).
      now rewrite as_float_zero, as_int_zero.
    + intros d t h s -> -> -> ->. reflexivity.
    + intros weather.
      destruct (weather_codes_get (or_zero current "weather_code")) as [d| |] eqn:Ed;
        cbn [obind]; try discriminate.
      destruct (as_float (or_zero current "temperature_2m")) as [t| |] eqn:Et;
        cbn [obind]; try discriminate.
      destruct (as_int (or_zero current "relative_humidity_2m")) as [h| |] eqn:Eh;
        cbn [obind]; try discriminate.
      destruct (as_float (or_zero current "wind_speed_10m")) as [s| |] eqn:Es;
        cbn [obind]; try discriminate.
      intros [= <-]. cbn [Weather.weather_description Weather.temperature_celsius
                            Weather.humidity Weather.wind_speed_kmh].
      unfold or_zero in *. repeat split; intros E.
      * rewrite E in Ed. now injection Ed.
      * rewrite E, as_float_zero in Et. now injection Et.
      * rewrite E, as_int_zero in Eh. now injection Eh.
      * rewrite E, as_float_zero in Es. now injection Es.
Qed.

(** ** Absent coordinates *)



Lemma by_name_result (w : world) (name : string) :
  result (get_travel_summary_by_name (TravelByNameRequest.Build name)) w
  = obind (result get_destinations w)
      (fun destinations =>
         match find (name_matches (strip name)) destinations with
         | None =>
             HTTPException 404
               ("Country '" ++ strip name
                ++ "' not found in destinations. Available countries: "
                ++ first_names destinations ++ "...")
         | Some matching_country =>
             result (summary_pipeline (Destination.country_code matching_country)) w
         end).
Proof.
  unfold get_travel_summary_by_name. rewrite result_mbind.
  cbn [TravelByNameRequest.country_name].
  destruct (result get_destinations w) as [destinations| |]; try reflexivity.
  cbn [obind]. now destruct (find _ destinations).
Qed.




(** ** Trimming *)

Lemma lstrip_all_space (s : string) : all_space s = true -> lstrip s = "".
Proof.
  induction s as [|c s IH]; simpl; [reflexivity|].
  intros H. apply andb_true_iff in H as [-> H]. now apply IH.
Qed.

Lemma rstrip_all_space (s : string) : all_space s = true -> rstrip s = "".
Proof.
  induction s as [|c s IH]; simpl; [reflexivity|].
  intros H. apply andb_true_iff in H as [-> H]. now rewrite IH.
Qed.

Lemma lstrip_space_app (l s : string) :
  all_space l = true -> lstrip (l ++ s) = lstrip s.
Proof.
  induction l as [|c l IH]; simpl; [reflexivity|].
  intros H. apply andb_true_iff in H as [-> H]. now apply IH.
Qed.

Lemma rstrip_app_space (s r : string) :
  all_space r = true -> rstrip (s ++ r) = rstrip s.
Proof.
  intros H. induction s as [|c s IH]; simpl.
  - now apply rstrip_all_space.
  - now rewrite IH.
Qed.

Lemma lstrip_app (s r : string) :
  lstrip (s ++ r) = if all_space s then lstrip r else lstrip s ++ r.
Proof.
  induction s as [|c s IH]; simpl; [reflexivity|].
  destruct (is_space c); simpl; [exact IH | reflexivity].
Qed.

(** White space around the text does not change what [strip] returns. *)
Lemma strip_surrounded (l s r : string) :
  all_space l = true -> all_space r = true -> strip (l ++ s ++ r) = strip s.
Proof.
  intros Hl Hr. unfold strip. rewrite (lstrip_space_app _ _ Hl), lstrip_app.
  destruct (all_space s) eqn:Hs.
  - now rewrite (lstrip_all_space _ Hr), (lstrip_all_space _ Hs).
  - now apply rstrip_app_space.
Qed.

(** ** Searching the destinations *)

Lemma find_no_match {A} (f : A -> bool) (l : list A) :
  (forall x, In x l -> f x = false) -> find f l = None.
Proof.
  induction l as [|x l IH]; simpl; intros H; [reflexivity|].
  rewrite (H x) by tauto. apply IH. intros y Hy. apply H. tauto.
Qed.

Lemma find_first_match {A} (f : A -> bool) (before after : list A) (m : A) :
  (forall x, In x before -> f x = false) -> f m = true ->
  find f (before ++ m :: after)%list = Some m.
Proof.
  induction before as [|x l IH]; simpl; intros H Hm.
  - now rewrite Hm.
  - rewrite (H x) by tauto. apply IH; [|exact Hm]. intros y Hy. apply H. tauto.
Qed.

Lemma name_matches_false (country_name : string) (dest : Destination.t) :
  ~ partial_match_ci country_name (Destination.country_name dest) ->
  name_matches country_name dest = false.
Proof.
  intros H. destruct (name_matches country_name dest) eqn:E; [|reflexivity].
  now apply name_matches_iff in E.
Qed.

(** ** Requests sent *)

Lemma trace_get_destinations (w : world) :
  trace get_destinations w = [GET_alpha_codes "JP,FR,IT,ES,TH,AU,GB,DE,NZ,CA"].
Proof.
  unfold trace, get_destinations. rewrite mbind_http_get. cbn [fst]. f_equal.
  now destruct (w _).
Qed.

Lemma trace_get_destination_info (w : world) (country_code : string) :
  trace (get_destination_info country_code) w = [GET_alpha (upper country_code)].
Proof.
  unfold trace, get_destination_info. rewrite mbind_http_get. cbn [fst]. f_equal.
  destruct (w _) as [msg|status msg|data|]; try reflexivity.
  now destruct (status =? 404)%Z.
Qed.

Lemma trace_get_coordinates (w : world) (city country_code : string) :
  trace (get_coordinates city country_code) w = [GET_geocoding_search city].
Proof.
  unfold trace, get_coordinates. rewrite mbind_http_get. cbn [fst]. f_equal.
  now destruct (w _).
Qed.

Lemma trace_get_weather_for_location (w : world) (lat lon : json) (name : string) :
  trace (get_weather_for_location lat lon name) w = [GET_forecast lat lon].
Proof.
  unfold trace, get_weather_for_location. rewrite mbind_http_get. cbn [fst]. f_equal.
  now destruct (w _).
Qed.

Lemma trace_summary_pipeline (w : world) (country_code name : string) :
  ~ In (GET_name name) (trace (summary_pipeline country_code) w).
Proof.
  unfold summary_pipeline. rewrite trace_mbind, trace_get_destination_info.
  destruct (result (get_destination_info country_code) w) as [destination| |];
    try (simpl; intuition discriminate).
  rewrite trace_mbind, trace_get_coordinates.
  destruct (result (get_coordinates _ _) w) as [[lat lon]| |];
    try (simpl; intuition discriminate).
  destruct (is_None lat || is_None lon); [simpl; intuition discriminate|].
  rewrite trace_mbind, trace_get_weather_for_location.
  destruct (result (get_weather_for_location _ _ _) w);
    simpl; intuition discriminate.
Qed.

Lemma by_name_trace (w : world) (name : string) :
  trace (get_travel_summary_by_name (TravelByNameRequest.Build name)) w
  = GET_alpha_codes "JP,FR,IT,ES,TH,AU,GB,DE,NZ,CA"
    :: match result get_destinations w with
       | Ret destinations =>
           match find (name_matches (strip name)) destinations with
           | None => []
           | Some matching_country =>
               trace (summary_pipeline (Destination.country_code matching_country)) w
           end
       | _ => []
       end.
Proof.
  unfold get_travel_summary_by_name.
  rewrite trace_mbind, trace_get_destinations.
  cbn [TravelByNameRequest.country_name app]. f_equal.
  destruct (result get_destinations w) as [destinations| |]; try reflexivity.
  now destruct (find _ destinations).
Qed.

(** ** The handler of POST /travel-summary-by-name *)

(** C4: on ASCII text (the name given, and the names and codes of the
    destinations), [get_travel_summary_by_name] trims the name it
    receives (white space around it changes nothing), and looks the
    trimmed name up among the names of [get_destinations], the first
    destination being taken whose name contains it or is contained in it
    when letter case is ignored.  It never sends a name search to the
    country directory.
    When no destination matches it fails with status 404 and a message
    that lists the first five destination names; when one matches it
    runs the pipeline on the code of that destination, which is what
    [get_travel_summary] does for that code. *)
Theorem summary_by_name_resolution :
  forall (w : world) (name : string),
    is_ascii name = true ->
    let by_name := get_travel_summary_by_name (TravelByNameRequest.Build name) in
    let country_name := strip name in
    (forall l r : string,
       all_space l = true -> all_space r = true ->
       get_travel_summary_by_name (TravelByNameRequest.Build (l ++ name ++ r)) w
       = by_name w)
    /\ (forall n : string, ~ In (GET_name n) (trace by_name w))
    /\ (forall destinations : list Destination.t,
          result get_destinations w = Ret destinations ->
          Forall (fun d => is_ascii (Destination.country_name d) = true
                           /\ is_ascii (Destination.country_code d) = true)
            destinations ->
          ((forall d, In d destinations ->
                      ~ partial_match_ci country_name (Destination.country_name d)) ->
           by_name w
           = ([GET_alpha_codes "JP,FR,IT,ES,TH,AU,GB,DE,NZ,CA"],
              HTTPException 404
                ("Country '" ++ country_name
                 ++ "' not found in destinations. Available countries: "
                 ++ String.concat ", "
                      (map Destination.country_name (firstn 5 destinations))
                 ++ "...")))
          /\ (forall (before after : list Destination.t) (m : Destination.t),
                destinations = (before ++ m :: after)%list ->
                (forall d, In d before ->
                           ~ partial_match_ci country_name (Destination.country_name d)) ->
                partial_match_ci country_name (Destination.country_name m) ->
                let code := Destination.country_code m in
                result by_name w = result (summary_pipeline code) w
                /\ trace by_name w
                   = GET_alpha_codes "JP,FR,IT,ES,TH,AU,GB,DE,NZ,CA"
                     :: trace (summary_pipeline code) w
                /\ (code <> "" -> upper code = code ->
                    result by_name w
                    = result (get_travel_summary (TravelRequest.Build (Some code))) w))).
Proof.
  intros w name _ by_name country_name. split; [|split].
  - intros l r Hl Hr. subst by_name. unfold get_travel_summary_by_name.
    cbn [TravelByNameRequest.country_name].
    now rewrite (strip_surrounded l name r Hl Hr).
  - intros n. subst by_name. rewrite by_name_trace. intros [H|H]; [discriminate|].
    destruct (result get_destinations w) as [destinations| |]; try contradiction.
    destruct (find _ destinations); [|contradiction].
    exact (trace_summary_pipeline _ _ _ H).
  - intros destinations Hd _. split.
    + intros Hmiss. subst by_name.
      rewrite run_eq, by_name_trace, by_name_result, Hd. cbn [obind].
      rewrite find_no_match; [reflexivity|].
      intros d Hin. apply name_matches_false. now apply Hmiss.
    + intros before after m -> Hbefore Hm code.
      assert (F : find (name_matches country_name) (before ++ m :: after)%list = Some m).
      { apply find_first_match.
        - intros d Hin. apply name_matches_false. now apply Hbefore.
        - now apply name_matches_iff. }
      subst by_name.
      assert (R : result (get_travel_summary_by_name (TravelByNameRequest.Build name)) w
                  = result (summary_pipeline code) w).
      { rewrite by_name_result, Hd. cbn [obind]. fold country_name. now rewrite F. }
      repeat split.
      * exact R.
      * rewrite by_name_trace, Hd. fold country_name. now rewrite F.
      * intros Hne Hup. rewrite (get_travel_summary_pipeline code Hne), Hup. exact R.
Qed.

(** ** Destinations *)

Lemma obind_ret_inv {A B} (m : outcome A) (k : A -> outcome B) (b : B) :
  obind m k = Ret b -> exists a, m = Ret a /\ k a = Ret b.
Proof. destruct m as [a| |]; try discriminate. intros H. now exists a. Qed.

Lemma for_each_Forall2 {A B} (f : A -> outcome B) (l : list A) (l' : list B) :
  for_each f l = Ret l' -> Forall2 (fun x y => f x = Ret y) l l'.
Proof.
  revert l'. induction l as [|x l IH]; simpl; intros l' H.
  - injection H as <-. constructor.
  - apply obind_ret_inv in H as (y & Hy & H).
    apply obind_ret_inv in H as (ys & Hys & H).
    injection H as <-. constructor; [exact Hy | now apply IH].
Qed.

Lemma for_each_nonempty {A B} (f : A -> outcome B) (l : list A) (l' : list B) :
  for_each f l = Ret l' -> l <> [] -> l' <> [].
Proof.
  intros H Hl. apply for_each_Forall2 in H. destruct H; [congruence | discriminate].
Qed.

Lemma get_destinations_result (w : world) :
  result get_destinations w
  = match w (GET_alpha_codes "JP,FR,IT,ES,TH,AU,GB,DE,NZ,CA") with
    | TransportError e | StatusError _ e =>
        HTTPException 503 ("Failed to fetch country data: " ++ e)
    | NotJson => Raise JSONDecodeError
    | Body countries_data =>
        countries <- py_iter countries_data ;;
        for_each destination_of_record countries
    end.
Proof.
  unfold result, get_destinations. rewrite mbind_http_get. cbn [snd].
  change (join "," popular_codes) with "JP,FR,IT,ES,TH,AU,GB,DE,NZ,CA".
  now destruct (w _).
Qed.

Lemma get_destination_info_result (w : world) (country_code : string) (data : json) :
  w (GET_alpha (upper country_code)) = Body data ->
  result (get_destination_info country_code) w
  = (record <- match data with
               | JArr _ => py_index0 data
               | _ => Ret data
               end ;;
     destination_of_record record).
Proof.
  intros H. unfold result, get_destination_info. rewrite mbind_http_get, H.
  reflexivity.
Qed.

Lemma as_str_inv (j : json) (s : string) : as_str j = Ret s -> j = JStr s.
Proof. destruct j; try discriminate. now intros [= ->]. Qed.

Lemma keys_of_truthy (kv : list (string * json)) (k : string) (ks : list json) :
  truthy (field kv k) = true ->
  py_keys (match dict_get kv k with Some v => v | None => JObj [] end) = Ret ks ->
  ks <> [].
Proof.
  unfold field. destruct (dict_get kv k) as [v|]; [|discriminate].
  destruct v as [| | | | | |kv']; try discriminate.
  destruct kv'; [discriminate|]. intros _ [= <-]. discriminate.
Qed.

Lemma values_of_truthy (kv : list (string * json)) (k : string) (vs : list json) :
  truthy (field kv k) = true ->
  py_values (match dict_get kv k with Some v => v | None => JObj [] end) = Ret vs ->
  vs <> [].
Proof.
  unfold field. destruct (dict_get kv k) as [v|]; [|discriminate].
  destruct v as [| | | | | |kv']; try discriminate.
  destruct kv'; [discriminate|]. intros _ [= <-]. discriminate.
Qed.

(** What a [Destination] built from a record holds: the "cca2" of the
    record as its code, and lists of currencies and languages that are
    not empty, the placeholder standing for a missing or falsy field. *)
Lemma destination_of_record_inv (country : json) (d : Destination.t) :
  destination_of_record country = Ret d ->
  exists kv,
    country = JObj kv
    /\ JStr (Destination.country_code d)
       = match dict_get kv "cca2" with Some v => v | None => JStr "" end
    /\ Destination.currencies d <> []
    /\ Destination.languages d <> []
    /\ (truthy (field kv "currencies") = false -> Destination.currencies d = ["N/A"])
    /\ (truthy (field kv "languages") = false -> Destination.languages d = ["N/A"]).
Proof.
  intros H. destruct country as [| | | | | |kv]; try discriminate H.
  exists kv. split; [reflexivity|].
  unfold destination_of_record in H. cbn [py_get obind] in H.
  fold (field kv "currencies") (field kv "languages") (field kv "capital") in H.
  apply obind_ret_inv in H as (cur & Hcur & H).
  apply obind_ret_inv in H as (lan & Hlan & H).
  apply obind_ret_inv in H as (cap & Hcap & H).
  apply obind_ret_inv in H as (name & Hname & H).
  apply obind_ret_inv in H as (code & Hcode & H).
  apply obind_ret_inv in H as (cname & Hcname & H).
  apply obind_ret_inv in H as (capital & Hcapital & H).
  apply obind_ret_inv in H as (region & Hregion & H).
  apply obind_ret_inv in H as (population & Hpop & H).
  apply obind_ret_inv in H as (currencies & Hcs & H).
  apply obind_ret_inv in H as (languages & Hls & H).
  injection H as <-.
  cbn [Destination.country_code Destination.currencies Destination.languages].
  clear Hcap Hname Hcname Hcapital Hregion Hpop.
  split; [symmetry; now apply as_str_inv|].
  destruct (truthy (field kv "currencies")) eqn:Tc;
    destruct (truthy (field kv "languages")) eqn:Tl;
    try (injection Hcur as <-; injection Hcs as <-);
    try (injection Hlan as <-; injection Hls as <-);
    repeat split; try discriminate; try reflexivity;
    solve [ apply (for_each_nonempty _ _ _ Hcs),
              (keys_of_truthy kv "currencies" cur Tc Hcur)
          | apply (for_each_nonempty _ _ _ Hls),
              (values_of_truthy kv "languages" lan Tl Hlan) ].
Qed.

Lemma get_destination_info_inv (w : world) (country_code : string) (d : Destination.t) :
  result (get_destination_info country_code) w = Ret d ->
  exists data kv,
    w (GET_alpha (upper country_code)) = Body data
    /\ directory_record data = Some kv
    /\ destination_of_record (JObj kv) = Ret d.
Proof.
  intros H. destruct (w (GET_alpha (upper country_code))) as [e|status e|data|] eqn:E.
  - unfold result, get_destination_info in H. rewrite mbind_http_get, E in H.
    discriminate H.
  - unfold result, get_destination_info in H. rewrite mbind_http_get, E in H.
    cbn [snd] in H. destruct (status =? 404)%Z; discriminate H.
  - rewrite (get_destination_info_result w country_code data E) in H.
    apply obind_ret_inv in H as (record & Hrec & H).
    destruct (destination_of_record_inv record d H) as (kv & -> & _).
    exists data, kv. repeat split; [|exact H].
    destruct data as [| | | | |l|kv']; try discriminate Hrec.
    + destruct l as [|x l]; [discriminate Hrec|].
      cbn [py_index0] in Hrec. now injection Hrec as ->.
    + now injection Hrec as ->.
  - unfold result, get_destination_info in H. rewrite mbind_http_get, E in H.
    discriminate H.
Qed.



(** ** The code of a destination *)

(** C7, amended: the [country_code] of the [Destination] that
    [get_destination_info] returns is the "cca2" of the record the
    country directory answered (the empty string when the record has
    none); so for every code of the popular set, when the directory
    answers the lookup of the code with a record of that code, the
    country code of the destination and the code asked for are equal
    once both are upper-cased. *)
Theorem country_code_round_trip :
  (forall (w : world) (code : string) (d : Destination.t),
     result (get_destination_info code) w = Ret d ->
     exists data kv,
       w (GET_alpha (upper code)) = Body data
       /\ directory_record data = Some kv
       /\ JStr (Destination.country_code d)
          = match dict_get kv "cca2" with Some v => v | None => JStr "" end)
  /\ (forall (w : world) (code : string) (d : Destination.t),
        In code popular_codes ->
        directory_echoes w code ->
        result (get_destination_info code) w = Ret d ->
        upper (Destination.country_code d) = upper code).
Proof.
  assert (G : forall (w : world) (code : string) (d : Destination.t),
             result (get_destination_info code) w = Ret d ->
             exists data kv,
               w (GET_alpha (upper code)) = Body data
               /\ directory_record data = Some kv
               /\ JStr (Destination.country_code d)
                  = match dict_get kv "cca2" with Some v => v | None => JStr "" end).
  { intros w code d H.
    destruct (get_destination_info_inv w code d H) as (data & kv & Hw & Hrec & Hd).
    destruct (destination_of_record_inv _ d Hd) as (kv' & [= <-] & Hcode & _).
    now exists data, kv. }
  split; [exact G|].
  intros w code d _ Hecho H.
  destruct (G w code d H) as (data & kv & Hw & Hrec & Hcode).
  destruct (Hecho data kv Hw Hrec) as (c & Hc & Hup).
  rewrite Hc in Hcode. injection Hcode as ->. exact Hup.
Qed.

(** ** The search by name, for comparison *)

(** * Further properties of the code *)

(** ** The search by name *)

Lemma get_destinations_run (w : world) :
  get_destinations w
  = ([GET_alpha_codes "JP,FR,IT,ES,TH,AU,GB,DE,NZ,CA"], result get_destinations w).
Proof. now rewrite run_eq, trace_get_destinations. Qed.

Lemma mbind_run {A B} (m : M A) (k : A -> M B) (w : world) t a :
  m w = (t, Ret a) -> mbind m k w = ((t ++ fst (k a w))%list, snd (k a w)).
Proof. intros H. now rewrite (mbind_ret _ _ _ _ _ H). Qed.

(** X1: on ASCII names, when the given name matches a destination of the
    list (case ignored, either way round),
    [search_destination_by_name] answers the
    code and the name of the first destination that matches, and the
    batched lookup is the only request it sends. *)
Theorem search_returns_first_match :
  forall (w : world) (country : string) (before after : list Destination.t)
         (m : Destination.t),
    is_ascii country = true ->
    Forall (fun d => is_ascii (Destination.country_name d) = true)
      (before ++ m :: after)%list ->
    result get_destinations w = Ret (before ++ m :: after)%list ->
    (forall d, In d before ->
               ~ partial_match_ci country (Destination.country_name d)) ->
    partial_match_ci country (Destination.country_name m) ->
    search_destination_by_name country w
    = ([GET_alpha_codes "JP,FR,IT,ES,TH,AU,GB,DE,NZ,CA"],
       Ret (CountryCodeResponse.Build (Destination.country_code m)
              (Destination.country_name m))).
Proof.
  intros w country before after m _ _ Hd Hbefore Hm.
  unfold search_destination_by_name.
  rewrite (mbind_run _ _ w _ (before ++ m :: after)%list)
    by (rewrite get_destinations_run; now rewrite Hd).
  rewrite find_first_match; [reflexivity| |now apply name_matches_iff].
  intros d Hin. apply name_matches_false. now apply Hbefore.
Qed.

(** X2: on ASCII names, when no destination of the list matches,
    [search_destination_by_name] asks the country directory for the name
    and answers from the first record of its list: the "cca2" of the
    record and the common name, or the empty code and "Unknown" when the
    record has neither. *)
Theorem search_falls_back_to_directory :
  forall (w : world) (country : string) (destinations : list Destination.t)
         (record : list (string * json)) (others : list json),
    is_ascii country = true ->
    Forall (fun d => is_ascii (Destination.country_name d) = true) destinations ->
    result get_destinations w = Ret destinations ->
    (forall d, In d destinations ->
               ~ partial_match_ci country (Destination.country_name d)) ->
    w (GET_name country) = Body (JArr (JObj record :: others)) ->
    (forall (code common : string) (name : list (string * json)),
       dict_get record "cca2" = Some (JStr code) ->
       dict_get record "name" = Some (JObj name) ->
       dict_get name "common" = Some (JStr common) ->
       search_destination_by_name country w
       = ([GET_alpha_codes "JP,FR,IT,ES,TH,AU,GB,DE,NZ,CA"; GET_name country],
          Ret (CountryCodeResponse.Build code common)))
    /\ (dict_get record "cca2" = None ->
        dict_get record "name" = None ->
        search_destination_by_name country w
        = ([GET_alpha_codes "JP,FR,IT,ES,TH,AU,GB,DE,NZ,CA"; GET_name country],
           Ret (CountryCodeResponse.Build "" "Unknown"))).
Proof.
  intros w country destinations record others _ _ Hd Hmiss Hw.
  assert (F : find (name_matches country) destinations = None).
  { apply find_no_match. intros d Hin. apply name_matches_false. now apply Hmiss. }
  split.
  - intros code common name Hc Hn Hcommon.
    unfold search_destination_by_name.
    rewrite (mbind_run _ _ w _ destinations)
      by (rewrite get_destinations_run; now rewrite Hd).
    rewrite F, mbind_http_get, Hw.
    unfold trace, result, lift, mbind.
    cbn [truthy py_len_pos List.length Nat.eqb negb fst snd app
         py_index0 py_get obind].
    rewrite Hc, Hn. cbn [py_get obind]. rewrite Hcommon. reflexivity.
  - intros Hc Hn.
    unfold search_destination_by_name.
    rewrite (mbind_run _ _ w _ destinations)
      by (rewrite get_destinations_run; now rewrite Hd).
    rewrite F, mbind_http_get, Hw.
    unfold trace, result, lift, mbind.
    cbn [truthy py_len_pos List.length Nat.eqb negb fst snd app
         py_index0 py_get obind].
    rewrite Hc, Hn. reflexivity.
Qed.

(** X3: on ASCII names, when no destination of the list matches and the
    name search of
    the country directory fails with a transport or HTTP status error, or
    answers an empty list, [search_destination_by_name] fails with status
    404 and a message that names the first five destinations; the error
    of the directory is dropped. *)
Theorem search_not_found :
  forall (w : world) (country : string) (destinations : list Destination.t),
    is_ascii country = true ->
    Forall (fun d => is_ascii (Destination.country_name d) = true) destinations ->
    result get_destinations w = Ret destinations ->
    (forall d, In d destinations ->
               ~ partial_match_ci country (Destination.country_name d)) ->
    name_search_empty (w (GET_name country)) = true ->
    search_destination_by_name country w
    = ([GET_alpha_codes "JP,FR,IT,ES,TH,AU,GB,DE,NZ,CA"; GET_name country],
       HTTPException 404
         ("Country '" ++ country ++ "' not found. Try: "
          ++ String.concat ", " (map Destination.country_name (firstn 5 destinations))
          ++ "...")).
Proof.
  intros w country destinations _ _ Hd Hmiss He.
  assert (F : find (name_matches country) destinations = None).
  { apply find_no_match. intros d Hin. apply name_matches_false. now apply Hmiss. }
  unfold search_destination_by_name.
  rewrite (mbind_run _ _ w _ destinations)
    by (rewrite get_destinations_run; now rewrite Hd).
  rewrite F, mbind_http_get.
  destruct (w (GET_name country)) as [msg|status msg|countries|];
    try discriminate He; try reflexivity.
  cbn [name_search_empty] in He. apply negb_true_iff in He. now rewrite He.
Qed.

(** ** Errors of the upstream services *)

Lemma is_http_error_cases (r : reply) (msg : string) :
  (r = TransportError msg \/ exists status, r = StatusError status msg) ->
  match r with
  | TransportError e | StatusError _ e => e = msg
  | _ => False
  end.
Proof. intros [->|[status ->]]; reflexivity. Qed.

(** X4: when the batched lookup of the country directory fails with a
    transport or HTTP status error, [get_destinations] fails with status
    503 and the text of that error, and so do the two handlers that start
    with it, [search_destination_by_name] and
    [get_travel_summary_by_name], without sending another request. *)
Theorem destinations_unavailable :
  forall (w : world) (msg name : string),
    (w (GET_alpha_codes "JP,FR,IT,ES,TH,AU,GB,DE,NZ,CA") = TransportError msg
     \/ exists status,
          w (GET_alpha_codes "JP,FR,IT,ES,TH,AU,GB,DE,NZ,CA") = StatusError status msg) ->
    get_destinations w
    = ([GET_alpha_codes "JP,FR,IT,ES,TH,AU,GB,DE,NZ,CA"],
       HTTPException 503 ("Failed to fetch country data: " ++ msg))
    /\ search_destination_by_name name w
       = ([GET_alpha_codes "JP,FR,IT,ES,TH,AU,GB,DE,NZ,CA"],
          HTTPException 503 ("Failed to fetch country data: " ++ msg))
    /\ get_travel_summary_by_name (TravelByNameRequest.Build name) w
       = ([GET_alpha_codes "JP,FR,IT,ES,TH,AU,GB,DE,NZ,CA"],
          HTTPException 503 ("Failed to fetch country data: " ++ msg)).
Proof.
  intros w msg name H.
  assert (D : get_destinations w
              = ([GET_alpha_codes "JP,FR,IT,ES,TH,AU,GB,DE,NZ,CA"],
                 HTTPException 503 ("Failed to fetch country data: " ++ msg))).
  { rewrite get_destinations_run, get_destinations_result.
    apply is_http_error_cases in H.
    destruct (w _) as [e|status e|data|]; try contradiction; now subst e. }
  split; [exact D|]. split.
  - unfold search_destination_by_name. now apply mbind_http_error.
  - unfold get_travel_summary_by_name. now apply mbind_http_error.
Qed.

(** The Python operations on decoded JSON and the validation of fields
    end with a value or an uncaught exception, never with an
    [HTTPException]. *)
Lemma no_http_Ret {A} (a : A) : no_http (Ret a).
Proof. intros c d. discriminate. Qed.

Lemma no_http_Raise {A} (e : pyexn) : no_http (@Raise A e).
Proof. intros c d. discriminate. Qed.

Lemma no_http_bind {A B} (m : outcome A) (k : A -> outcome B) :
  no_http m -> (forall a, no_http (k a)) -> no_http (obind m k).
Proof.
  intros Hm Hk c d. destruct m as [a|c' d'|e]; simpl.
  - apply Hk.
  - now destruct (Hm c' d').
  - discriminate.
Qed.

Lemma no_http_if {A} (b : bool) (x y : outcome A) :
  no_http x -> no_http y -> no_http (if b then x else y).
Proof. now destruct b. Qed.

Lemma no_http_for_each {A B} (f : A -> outcome B) (l : list A) :
  (forall x, no_http (f x)) -> no_http (for_each f l).
Proof.
  intros Hf. induction l as [|x l IH]; simpl; [apply no_http_Ret|].
  apply no_http_bind; [apply Hf|]. intros y.
  apply no_http_bind; [exact IH|]. intros ys. apply no_http_Ret.
Qed.

Lemma no_http_py_get d k v : no_http (py_get d k v).
Proof. destruct d; intros c e; discriminate. Qed.

Lemma no_http_py_keys d : no_http (py_keys d).
Proof. destruct d; intros c e; discriminate. Qed.

Lemma no_http_py_values d : no_http (py_values d).
Proof. destruct d; intros c e; discriminate. Qed.

Lemma no_http_py_index0 x : no_http (py_index0 x).
Proof. destruct x as [| | | |[|]|[|]|]; intros c e; discriminate. Qed.

Lemma no_http_py_item x k : no_http (py_item x k).
Proof.
  destruct x; intros c e; try discriminate. simpl. now destruct (dict_get kv k).
Qed.

Lemma no_http_py_iter x : no_http (py_iter x).
Proof. destruct x; intros c e; discriminate. Qed.

Lemma no_http_py_len_pos x : no_http (py_len_pos x).
Proof. destruct x; intros c e; discriminate. Qed.

Lemma no_http_as_str j : no_http (as_str j).
Proof. destruct j; intros c e; discriminate. Qed.

Lemma no_http_as_int j : no_http (as_int j).
Proof. unfold as_int. destruct (validate_int j); intros c e; discriminate. Qed.

Lemma no_http_as_float j : no_http (as_float j).
Proof. unfold as_float. destruct (validate_float j); intros c e; discriminate. Qed.

Lemma no_http_as_str_list l : no_http (as_str_list l).
Proof. apply no_http_for_each, no_http_as_str. Qed.

Lemma no_http_weather_codes_get j : no_http (weather_codes_get j).
Proof. destruct j; intros c e; discriminate. Qed.

Create HintDb no_http.
#[local] Hint Resolve no_http_Ret no_http_Raise no_http_py_get no_http_py_keys
  no_http_py_values no_http_py_index0 no_http_py_item no_http_py_iter
  no_http_py_len_pos no_http_as_str no_http_as_int no_http_as_float
  no_http_as_str_list no_http_weather_codes_get : no_http.

Ltac no_http_steps :=
  repeat first
    [ solve [auto with no_http]
    | apply no_http_bind; [|intros]
    | apply no_http_if
    | apply no_http_for_each; intros ].

Lemma no_http_destination_of_record country : no_http (destination_of_record country).
Proof. unfold destination_of_record. no_http_steps. Qed.



Lemma get_destination_info_run (w : world) (country_code : string) :
  get_destination_info country_code w
  = ([GET_alpha (upper country_code)], result (get_destination_info country_code) w).
Proof. now rewrite run_eq, trace_get_destination_info. Qed.

Lemma get_coordinates_run (w : world) (city country_code : string) :
  get_coordinates city country_code w
  = ([GET_geocoding_search city], result (get_coordinates city country_code) w).
Proof. now rewrite run_eq, trace_get_coordinates. Qed.

Lemma get_weather_run (w : world) (lat lon : json) (name : string) :
  get_weather_for_location lat lon name w
  = ([GET_forecast lat lon], result (get_weather_for_location lat lon name) w).
Proof. now rewrite run_eq, trace_get_weather_for_location. Qed.

(** The pipeline, stage by stage. *)
Lemma summary_pipeline_run (w : world) (country_code : string) :
  summary_pipeline country_code w
  = match result (get_destination_info country_code) w with
    | Ret destination =>
        match result (get_coordinates (Destination.capital destination)
                        country_code) w with
        | Ret (lat, lon) =>
            if is_None lat || is_None lon then
              ([GET_alpha (upper country_code);
                GET_geocoding_search (Destination.capital destination)],
               HTTPException 503
                 ("Could not find coordinates for "
                  ++ Destination.capital destination))
            else
              ([GET_alpha (upper country_code);
                GET_geocoding_search (Destination.capital destination);
                GET_forecast lat lon],
               match result (get_weather_for_location lat lon
                               (Destination.capital destination)) w with
               | Ret weather =>
                   Ret (TravelSummary.Build
                          (Destination.country_code destination)
                          (Destination.country_name destination)
                          (Destination.capital destination)
                          (Destination.region destination)
                          (Destination.population destination)
                          (Destination.currencies destination)
                          (Destination.languages destination)
                          weather
                          (generate_travel_tips (Destination.country_name destination)
                             (Destination.region destination) weather)
                          (get_best_time_to_visit (Destination.region destination)
                             country_code))
               | HTTPException c d => HTTPException c d
               | Raise e => Raise e
               end)
        | HTTPException c d =>
            ([GET_alpha (upper country_code);
              GET_geocoding_search (Destination.capital destination)],
             HTTPException c d)
        | Raise e =>
            ([GET_alpha (upper country_code);
              GET_geocoding_search (Destination.capital destination)],
             Raise e)
        end
    | HTTPException c d => ([GET_alpha (upper country_code)], HTTPException c d)
    | Raise e => ([GET_alpha (upper country_code)], Raise e)
    end.
Proof.
  unfold summary_pipeline, mbind at 1. rewrite get_destination_info_run.
  destruct (result (get_destination_info country_code) w) as [destination| |];
    try reflexivity.
  unfold mbind at 1. rewrite get_coordinates_run.
  destruct (result (get_coordinates _ _) w) as [[lat lon]| |]; try reflexivity.
  destruct (is_None lat || is_None lon); [reflexivity|].
  unfold mbind. rewrite get_weather_run.
  now destruct (result (get_weather_for_location _ _ _) w).
Qed.



(** ** What a returned summary holds *)

Lemma summary_pipeline_inv (w : world) (country_code : string)
      (summary : TravelSummary.t) :
  result (summary_pipeline country_code) w = Ret summary ->
  exists destination lat lon weather,
    result (get_destination_info country_code) w = Ret destination
    /\ result (get_coordinates (Destination.capital destination) country_code) w
       = Ret (lat, lon)
    /\ is_None lat || is_None lon = false
    /\ result (get_weather_for_location lat lon (Destination.capital destination)) w
       = Ret weather
    /\ trace (summary_pipeline country_code) w
       = [GET_alpha (upper country_code);
          GET_geocoding_search (Destination.capital destination);
          GET_forecast lat lon]
    /\ summary
       = TravelSummary.Build
           (Destination.country_code destination)
           (Destination.country_name destination)
           (Destination.capital destination)
           (Destination.region destination)
           (Destination.population destination)
           (Destination.currencies destination)
           (Destination.languages destination)
           weather
           (generate_travel_tips (Destination.country_name destination)
              (Destination.region destination) weather)
           (get_best_time_to_visit (Destination.region destination) country_code).
Proof.
  unfold result at 1, trace. rewrite summary_pipeline_run.
  destruct (result (get_destination_info country_code) w)
    as [destination| |] eqn:Hd; try discriminate.
  destruct (result (get_coordinates _ _) w) as [[lat lon]| |] eqn:Hc;
    try discriminate.
  destruct (is_None lat || is_None lon) eqn:Hn; try discriminate.
  destruct (result (get_weather_for_location _ _ _) w) as [weather| |] eqn:Hw;
    try discriminate.
  cbn [fst snd]. intros [= <-]. exists destination, lat, lon, weather.
  repeat split; assumption || reflexivity.
Qed.

Lemma int_dict_get_in_values {V} (d : list (Z * V)) (k : Z) (v : V) :
  int_dict_get d k = Some v -> In v (map snd d).
Proof.
  induction d as [|[k' v'] d IH]; simpl; [discriminate|].
  destruct (k =? k')%Z; [intros [= ->]; now left | intros H; right; now apply IH].
Qed.

Lemma describe_code_range (code : Z) :
  In (describe_code code) (map snd weather_codes) \/ describe_code code = "Unknown".
Proof.
  unfold describe_code. destruct (int_dict_get weather_codes code) eqn:E.
  - left. now apply int_dict_get_in_values in E.
  - now right.
Qed.

Lemma weather_codes_get_range (j : json) (description : string) :
  weather_codes_get j = Ret description ->
  In description (map snd weather_codes) \/ description = "Unknown".
Proof.
  unfold weather_codes_get. intros H.
  apply obind_ret_inv in H as ([code|] & _ & [= <-]);
    [apply describe_code_range | now right].
Qed.

Lemma get_weather_for_location_inv (w : world) (lat lon : json) (name : string)
      (weather : Weather.t) :
  result (get_weather_for_location lat lon name) w = Ret weather ->
  Weather.location weather = name
  /\ (In (Weather.weather_description weather) (map snd weather_codes)
      \/ Weather.weather_description weather = "Unknown").
Proof.
  intros H. unfold result, get_weather_for_location in H.
  rewrite mbind_http_get in H. cbn [snd] in H.
  destruct (w (GET_forecast lat lon)) as [e|status e|data|]; try discriminate H.
  unfold result, lift in H. cbn [snd] in H.
  apply obind_ret_inv in H as (current & _ & H).
  apply obind_ret_inv in H as (weather_code & _ & H).
  apply obind_ret_inv in H as (temperature & _ & H).
  apply obind_ret_inv in H as (description & Hd & H).
  apply obind_ret_inv in H as (humidity & _ & H).
  apply obind_ret_inv in H as (wind_speed & _ & H).
  apply obind_ret_inv in H as (t & _ & H).
  apply obind_ret_inv in H as (h & _ & H).
  apply obind_ret_inv in H as (s & _ & H).
  injection H as <-. split; [reflexivity|].
  now apply weather_codes_get_range in Hd.
Qed.

Lemma by_name_run (w : world) (name : string) :
  get_travel_summary_by_name (TravelByNameRequest.Build name) w
  = (trace (get_travel_summary_by_name (TravelByNameRequest.Build name)) w,
     result (get_travel_summary_by_name (TravelByNameRequest.Build name)) w).
Proof. apply run_eq. Qed.

Lemma by_name_inv (w : world) (name : string) (summary : TravelSummary.t) :
  result (get_travel_summary_by_name (TravelByNameRequest.Build name)) w = Ret summary ->
  exists destinations m,
    result get_destinations w = Ret destinations
    /\ find (name_matches (strip name)) destinations = Some m
    /\ result (summary_pipeline (Destination.country_code m)) w = Ret summary
    /\ trace (get_travel_summary_by_name (TravelByNameRequest.Build name)) w
       = GET_alpha_codes "JP,FR,IT,ES,TH,AU,GB,DE,NZ,CA"
         :: trace (summary_pipeline (Destination.country_code m)) w.
Proof.
  intros H. rewrite by_name_result in H. rewrite by_name_trace.
  destruct (result get_destinations w) as [destinations| |]; try discriminate H.
  cbn [obind] in H.
  destruct (find (name_matches (strip name)) destinations) as [m|] eqn:F;
    [|discriminate H].
  now exists destinations, m.
Qed.

Lemma by_code_inv (w : world) (request : TravelRequest.t) (summary : TravelSummary.t) :
  result (get_travel_summary request) w = Ret summary ->
  exists code,
    TravelRequest.country_code request = Some code
    /\ code <> ""
    /\ get_travel_summary request = summary_pipeline (upper code).
Proof.
  destruct request as [[code|]]; [|discriminate].
  destruct code as [|c code]; [discriminate|]. intros _.
  exists (String c code). split; [reflexivity|]. split; [discriminate|].
  apply get_travel_summary_pipeline. discriminate.
Qed.

Lemma not_None_both (lat lon : json) :
  is_None lat || is_None lon = false -> lat <> JNull /\ lon <> JNull.
Proof.
  intros H. apply orb_false_iff in H as [H1 H2].
  split; intros ->; discriminate.
Qed.

Lemma find_split {A} (f : A -> bool) (l : list A) (m : A) :
  find f l = Some m ->
  exists before after,
    l = (before ++ m :: after)%list
    /\ (forall x, In x before -> f x = false)
    /\ f m = true.
Proof.
  induction l as [|x l IH]; simpl; [discriminate|].
  destruct (f x) eqn:E.
  - intros [= ->]. exists [], l. repeat split; [intros y []|exact E].
  - intros H. destruct (IH H) as (before & after & -> & Hb & Hm).
    exists (x :: before), after. repeat split; [|exact Hm].
    intros y [<-|Hy]; [exact E | now apply Hb].
Qed.

Lemma name_matches_false_inv (country_name : string) (dest : Destination.t) :
  name_matches country_name dest = false ->
  ~ partial_match_ci country_name (Destination.country_name dest).
Proof. intros H P. apply name_matches_iff in P. congruence. Qed.

(** X7: a handler answers a summary only after it has asked, in this
    order, the country directory for the code, the geocoding service for
    the capital the summary shows, and the weather service at the
    coordinates the geocoding service returned, neither of them null;
    [get_travel_summary_by_name] asks for the list of destinations before
    these three, and the code it looks up is the code of the first
    destination of that list whose name matches the trimmed name.  (For
    ASCII codes and names, on which the text operations are Python's.) *)
Theorem summary_requests_in_order :
  (forall (w : world) (code : string) (summary : TravelSummary.t),
     is_ascii code = true ->
     result (get_travel_summary (TravelRequest.Build (Some code))) w = Ret summary ->
     exists lat lon,
       trace (get_travel_summary (TravelRequest.Build (Some code))) w
       = [GET_alpha (upper code);
          GET_geocoding_search (TravelSummary.capital summary);
          GET_forecast lat lon]
       /\ result (get_coordinates (TravelSummary.capital summary) (upper code)) w
          = Ret (lat, lon)
       /\ lat <> JNull /\ lon <> JNull)
  /\ (forall (w : world) (name : string) (summary : TravelSummary.t)
             (destinations : list Destination.t),
        is_ascii name = true ->
        result get_destinations w = Ret destinations ->
        Forall (fun d => is_ascii (Destination.country_name d) = true
                         /\ is_ascii (Destination.country_code d) = true)
          destinations ->
        result (get_travel_summary_by_name (TravelByNameRequest.Build name)) w
        = Ret summary ->
        exists before m after lat lon,
          destinations = (before ++ m :: after)%list
          /\ (forall d, In d before ->
                        ~ partial_match_ci (strip name) (Destination.country_name d))
          /\ partial_match_ci (strip name) (Destination.country_name m)
          /\ trace (get_travel_summary_by_name (TravelByNameRequest.Build name)) w
             = [GET_alpha_codes "JP,FR,IT,ES,TH,AU,GB,DE,NZ,CA";
                GET_alpha (upper (Destination.country_code m));
                GET_geocoding_search (TravelSummary.capital summary);
                GET_forecast lat lon]
          /\ result (get_coordinates (TravelSummary.capital summary)
                       (Destination.country_code m)) w
             = Ret (lat, lon)
          /\ lat <> JNull /\ lon <> JNull).
Proof.
  split.
  - intros w code0 summary _ H.
    destruct (by_code_inv w _ summary H) as (code & Hreq & Hne & Heq).
    cbn [TravelRequest.country_code] in Hreq. injection Hreq as <-.
    rewrite Heq in *.
    destruct (summary_pipeline_inv w _ summary H)
      as (destination & lat & lon & weather & Hd & Hc & Hn & Hw & Ht & ->).
    exists lat, lon. cbn [TravelSummary.capital].
    rewrite upper_idem in Ht.
    destruct (not_None_both lat lon Hn). now repeat split.
  - intros w name summary destinations _ Hl _ H.
    destruct (by_name_inv w name summary H) as (destinations' & m & Hl' & Hf & Hp & Ht).
    rewrite Hl in Hl'. injection Hl' as <-.
    destruct (summary_pipeline_inv w _ summary Hp)
      as (destination & lat & lon & weather & Hd & Hc & Hn & Hw & Ht' & ->).
    destruct (find_split _ _ _ Hf) as (before & after & Hsplit & Hbefore & Hm).
    exists before, m, after, lat, lon. cbn [TravelSummary.capital].
    rewrite Ht, Ht'. apply name_matches_iff in Hm.
    destruct (not_None_both lat lon Hn). repeat split; try assumption.
    intros d Hin. apply name_matches_false_inv. now apply Hbefore.
Qed.

(** X8: a summary that a handler returns is consistent with itself: the
    location of its weather is its capital, its tips are the tips for
    its own country name, region and weather, its lists of currencies and
    languages are not empty, and the description of its weather is a
    description of the code table or "Unknown". *)
Theorem summary_is_consistent :
  forall (w : world) (summary : TravelSummary.t),
    ((exists request, result (get_travel_summary request) w = Ret summary)
     \/ (exists request, result (get_travel_summary_by_name request) w = Ret summary)) ->
    Weather.location (TravelSummary.current_weather summary)
    = TravelSummary.capital summary
    /\ TravelSummary.travel_tips summary
       = generate_travel_tips (TravelSummary.country_name summary)
           (TravelSummary.region summary) (TravelSummary.current_weather summary)
    /\ TravelSummary.currencies summary <> []
    /\ TravelSummary.languages summary <> []
    /\ (In (Weather.weather_description (TravelSummary.current_weather summary))
           (map snd weather_codes)
        \/ Weather.weather_description (TravelSummary.current_weather summary)
           = "Unknown").
Proof.
  intros w summary H.
  assert (P : exists code, result (summary_pipeline code) w = Ret summary).
  { destruct H as [[request H]|[[name] H]].
    - destruct (by_code_inv w request summary H) as (code & _ & _ & Heq).
      rewrite Heq in H. now exists (upper code).
    - destruct (by_name_inv w name summary H) as (_ & m & _ & _ & Hp & _).
      now exists (Destination.country_code m). }
  destruct P as (code & P).
  destruct (summary_pipeline_inv w _ summary P)
    as (destination & lat & lon & weather & Hd & _ & _ & Hw & _ & ->).
  cbn [TravelSummary.current_weather TravelSummary.capital TravelSummary.travel_tips
       TravelSummary.country_name TravelSummary.region TravelSummary.currencies
       TravelSummary.languages].
  destruct (get_weather_for_location_inv w lat lon _ weather Hw) as [Hl Hr].
  destruct (get_destination_info_inv w code destination Hd) as (data & kv & _ & _ & Hrec).
  destruct (destination_of_record_inv _ destination Hrec) as (kv' & _ & _ & Hc & Hg & _).
  now repeat split.
Qed.

(** ** Letter case and blank names *)

Lemma upper_empty (s : string) : upper s = "" -> s = "".
Proof. destruct s; [reflexivity | discriminate]. Qed.

(** X9: [get_travel_summary] does not look at the letter case of the
    code: two requests whose codes differ in case only send the same
    requests and end with the same outcome, the messages included. *)
Theorem summary_by_code_ignores_case :
  forall (w : world) (code1 code2 : string),
    upper code1 = upper code2 ->
    get_travel_summary (TravelRequest.Build (Some code1)) w
    = get_travel_summary (TravelRequest.Build (Some code2)) w.
Proof.
  intros w code1 code2 H.
  destruct (string_dec code1 "") as [->|H1].
  - symmetry in H. apply upper_empty in H. now subst.
  - assert (H2 : code2 <> "").
    { intros ->. apply H1. now apply upper_empty. }
    now rewrite (get_travel_summary_pipeline _ H1),
                (get_travel_summary_pipeline _ H2), H.
Qed.

Lemma contains_empty (s : string) : contains "" s = true.
Proof. now destruct s. Qed.

Lemma strip_all_space (s : string) : all_space s = true -> strip s = "".
Proof. intros H. unfold strip. now rewrite (lstrip_all_space s H). Qed.

(** X10: a name that is empty or white space only matches every
    destination: [get_travel_summary_by_name] then summarises the first
    destination of the list instead of failing, and fails with status 404
    only when the list is empty; [search_destination_by_name] with the
    empty name answers the first destination too. *)
Theorem blank_name_takes_first_destination :
  forall (w : world) (name : string),
    all_space name = true ->
    (forall (first : Destination.t) (others : list Destination.t),
       result get_destinations w = Ret (first :: others) ->
       result (get_travel_summary_by_name (TravelByNameRequest.Build name)) w
       = result (summary_pipeline (Destination.country_code first)) w
       /\ result (search_destination_by_name "") w
          = Ret (CountryCodeResponse.Build (Destination.country_code first)
                   (Destination.country_name first)))
    /\ (result get_destinations w = Ret [] ->
        result (get_travel_summary_by_name (TravelByNameRequest.Build name)) w
        = HTTPException 404
            "Country '' not found in destinations. Available countries: ...").
Proof.
  intros w name Hs. split.
  - intros first others Hd. split.
    + rewrite by_name_result, Hd, (strip_all_space name Hs). cbn [obind find].
      unfold name_matches. cbn [lower map_string]. now rewrite contains_empty.
    + unfold result, search_destination_by_name.
      rewrite (mbind_run _ _ w _ (first :: others))
        by (rewrite get_destinations_run; now rewrite Hd).
      cbn [find]. unfold name_matches. cbn [lower map_string].
      now rewrite contains_empty.
  - intros Hd. now rewrite by_name_result, Hd, (strip_all_space name Hs).
Qed.

(** ** Coordinates *)

Lemma get_coordinates_body (w : world) (city country_code : string)
      (data place : list (string * json)) (others : list json) :
  w (GET_geocoding_search city) = Body (JObj data) ->
  dict_get data "results" = Some (JArr (JObj place :: others)) ->
  result (get_coordinates city country_code) w
  = (latitude <- py_item (JObj place) "latitude" ;;
     longitude <- py_item (JObj place) "longitude" ;;
     Ret (latitude, longitude)).
Proof.
  intros Hw Hr. unfold result, get_coordinates. rewrite mbind_http_get, Hw.
  unfold result, lift. cbn [snd py_get py_item obind]. rewrite Hr. reflexivity.
Qed.

(** X11: when the geocoding service answers places, [get_coordinates]
    returns the latitude and the longitude of the first place as they
    are; the other places play no part. *)
Theorem coordinates_of_first_place :
  forall (w : world) (city country_code : string)
         (data place : list (string * json)) (others : list json) (lat lon : json),
    w (GET_geocoding_search city) = Body (JObj data) ->
    dict_get data "results" = Some (JArr (JObj place :: others)) ->
    dict_get place "latitude" = Some lat ->
    dict_get place "longitude" = Some lon ->
    get_coordinates city country_code w = ([GET_geocoding_search city], Ret (lat, lon)).
Proof.
  intros w city cc data place others lat lon Hw Hr Hlat Hlon.
  rewrite get_coordinates_run, (get_coordinates_body w city cc data place others Hw Hr).
  cbn [py_item]. now rewrite Hlat, Hlon.
Qed.

Lemma coordinates_of_first_place_witness :
  get_coordinates "Tokyo" "JP" (japan_world tokyo_geocoding NotJson)
  = ([GET_geocoding_search "Tokyo"],
     Ret (JFloat (S754_finite false 5022850590657479 (-47)),
          JFloat (S754_finite false 4914965102365214 (-45)))).
Proof.
  eapply coordinates_of_first_place; reflexivity.
Defined.



(** ** Records and destinations *)

Lemma Forall2_length_eq {A B} (R : A -> B -> Prop) l l' :
  Forall2 R l l' -> List.length l = List.length l'.
Proof. induction 1; simpl; congruence. Qed.

Lemma for_each_all_ret {A B} (f : A -> outcome B) (l : list A) (l' : list B) (x : A) :
  for_each f l = Ret l' -> In x l -> exists y, f x = Ret y.
Proof.
  intros H Hin. apply for_each_Forall2 in H.
  induction H as [|a b l l' Hab _ IH]; [contradiction|].
  destruct Hin as [<-|Hin]; [now exists b | now apply IH].
Qed.

(** X14: [get_destinations] builds one [Destination] per record of the
    list the directory answers, in the order of the list, each with the
    "cca2" of its record as code; and it returns all of them or none: one
    record that is not an object makes the whole call end with an
    uncaught exception. *)
Theorem destinations_all_or_nothing :
  forall (w : world) (countries : list json),
    w (GET_alpha_codes "JP,FR,IT,ES,TH,AU,GB,DE,NZ,CA") = Body (JArr countries) ->
    (forall destinations : list Destination.t,
       result get_destinations w = Ret destinations ->
       List.length destinations = List.length countries
       /\ Forall2 (fun country d =>
                     exists kv,
                       country = JObj kv
                       /\ JStr (Destination.country_code d)
                          = match dict_get kv "cca2" with
                            | Some v => v
                            | None => JStr ""
                            end)
            countries destinations)
    /\ ((exists country, In country countries /\ forall kv, country <> JObj kv) ->
        exists e, result get_destinations w = Raise e).
Proof.
  intros w countries Hw. rewrite get_destinations_result, Hw. cbn [py_iter obind].
  split.
  - intros destinations H. apply for_each_Forall2 in H. split.
    + symmetry. exact (Forall2_length_eq _ _ _ H).
    + revert H. apply Forall2_impl. intros country d H.
      destruct (destination_of_record_inv country d H) as (kv & -> & Hc & _).
      now exists kv.
  - intros (country & Hin & Hbad).
    destruct (for_each destination_of_record countries) as [destinations|c d|e] eqn:E.
    + destruct (for_each_all_ret _ _ _ country E Hin) as (d & Hd).
      destruct (destination_of_record_inv country d Hd) as (kv & -> & _).
      now destruct (Hbad kv).
    + exfalso. revert E. apply no_http_for_each. apply no_http_destination_of_record.
    + now exists e.
Qed.



(** ** Rain *)

Lemma rain_test_of_code (code : Z) :
  contains "rain" (lower (describe_code code))
  || contains "drizzle" (lower (describe_code code))
  = existsb (Z.eqb code) rainy_codes.
Proof.
  unfold describe_code, weather_codes, int_dict_get, rainy_codes, existsb.
  repeat match goal with
  | |- context [(code =? ?k)%Z] =>
      destruct (Z.eqb_spec code k) as [->|?]; [reflexivity|]
  end.
  reflexivity.
Qed.

Lemma umbrella_in_tips (country_name region : string) (weather : Weather.t) :
  In "Bring an umbrella or rain jacket"
     (generate_travel_tips country_name region weather)
  <-> contains "rain" (lower (Weather.weather_description weather))
      || contains "drizzle" (lower (Weather.weather_description weather)) = true.
Proof.
  unfold generate_travel_tips, py_append, region_tips, dict_get.
  destruct (SFltb (float_of_Z 30) (Weather.temperature_celsius weather));
    [|destruct (SFltb (Weather.temperature_celsius weather) (float_of_Z 10))];
    destruct (contains "rain" _ || contains "drizzle" _);
    repeat match goal with
    | |- context [String.eqb region ?k] => destruct (String.eqb region k)
    end;
    cbn [app In String.append];
    (split; [intros H; repeat (destruct H as [H|H]; try discriminate H);
             try reflexivity; try contradiction
            | intros H; try discriminate H; tauto]).
Qed.

(** X16: the weather client and the tips together: for an integer
    weather code, the umbrella tip is among the tips exactly when the
    code is one of the drizzle, rain and rain-shower codes 51, 53, 55,
    61, 63, 65, 80, 81, 82; a thunderstorm (95), snow or an unknown code
    gives none. *)
Theorem umbrella_exactly_for_rainy_codes :
  forall (country_name region location : string) (temperature wind : spec_float)
         (humidity code : Z),
    In "Bring an umbrella or rain jacket"
       (generate_travel_tips country_name region
          (Weather.Build location temperature (describe_code code) humidity wind))
    <-> In code rainy_codes.
Proof.
  intros name region location t ws h code.
  rewrite umbrella_in_tips. cbn [Weather.weather_description].
  rewrite rain_test_of_code, existsb_exists. split.
  - intros (k & Hin & Hk). apply Z.eqb_eq in Hk. now subst k.
  - intros Hin. exists code. split; [exact Hin | apply Z.eqb_refl].
Qed.

(** ** Status codes *)

Lemma get_destinations_status (w : world) c d :
  result get_destinations w = HTTPException c d -> c = 503%Z.
Proof.
  rewrite get_destinations_result.
  destruct (w _) as [e|status e|data|]; try (now intros [= <- _]); try discriminate.
  intros H. exfalso. revert H.
  apply no_http_bind; [auto with no_http|]. intros countries.
  apply no_http_for_each, no_http_destination_of_record.
Qed.

Lemma get_destination_info_status (w : world) (country_code : string) c d :
  result (get_destination_info country_code) w = HTTPException c d ->
  c = 404%Z \/ c = 503%Z.
Proof.
  unfold result, get_destination_info. rewrite mbind_http_get. cbn [snd].
  destruct (w _) as [e|status e|data|]; try discriminate.
  - intros [= <- _]. now right.
  - destruct (status =? 404)%Z; intros [= <- _]; [now left | now right].
  - intros H. exfalso. revert H. unfold result, lift. cbn [snd].
    apply no_http_bind; [|intros; apply no_http_destination_of_record].
    destruct data; auto with no_http.
Qed.

Lemma get_coordinates_no_http (w : world) (city country_code : string) :
  no_http (result (get_coordinates city country_code) w).
Proof.
  unfold result, get_coordinates. rewrite mbind_http_get. cbn [snd].
  destruct (w _) as [e|status e|data|]; unfold result, lift; cbn [snd];
    no_http_steps.
Qed.

Lemma get_weather_for_location_status (w : world) (lat lon : json) (name : string) c d :
  result (get_weather_for_location lat lon name) w = HTTPException c d -> c = 503%Z.
Proof.
  unfold result, get_weather_for_location. rewrite mbind_http_get. cbn [snd].
  destruct (w _) as [e|status e|data|]; try (now intros [= <- _]); try discriminate.
  intros H. exfalso. revert H. unfold result, lift. cbn [snd]. no_http_steps.
Qed.

Lemma summary_pipeline_status (w : world) (country_code : string) c d :
  result (summary_pipeline country_code) w = HTTPException c d ->
  c = 404%Z \/ c = 503%Z.
Proof.
  unfold result at 1. rewrite summary_pipeline_run.
  destruct (result (get_destination_info country_code) w)
    as [destination|c' d'|e] eqn:Hd; try discriminate.
  - destruct (result (get_coordinates _ _) w) as [[lat lon]|c' d'|e] eqn:Hc;
      try discriminate.
    + destruct (is_None lat || is_None lon); [intros [= <- _]; now right|].
      cbn [snd].
      destruct (result (get_weather_for_location _ _ _) w) as [weather|c' d'|e] eqn:Hw;
        try discriminate.
      intros [= <- <-]. right. exact (get_weather_for_location_status _ _ _ _ _ _ Hw).
    + intros _. exfalso. exact (get_coordinates_no_http _ _ _ _ _ Hc).
  - intros [= <- <-]. exact (get_destination_info_status _ _ _ _ Hd).
Qed.

(** X17: the statuses with which the handlers fail.  [get_destinations]
    fails with 503 only and [get_destination_info] with 404 or 503;
    [search_destination_by_name] and [get_travel_summary_by_name] with 404
    or 503; [get_travel_summary] with 400, 404 or 503, and with 400 only
    when the code of the request is missing or empty. *)
Theorem handler_status_codes :
  forall (w : world) (c : Z) (d : string),
    (result get_destinations w = HTTPException c d -> c = 503%Z)
    /\ (forall country_code,
          result (get_destination_info country_code) w = HTTPException c d ->
          c = 404%Z \/ c = 503%Z)
    /\ (forall country,
          result (search_destination_by_name country) w = HTTPException c d ->
          c = 404%Z \/ c = 503%Z)
    /\ (forall request,
          result (get_travel_summary_by_name request) w = HTTPException c d ->
          c = 404%Z \/ c = 503%Z)
    /\ (forall request,
          result (get_travel_summary request) w = HTTPException c d ->
          (c = 400%Z /\ (TravelRequest.country_code request = None
                         \/ TravelRequest.country_code request = Some ""))
          \/ c = 404%Z \/ c = 503%Z).
Proof.
  intros w c d. split; [apply get_destinations_status|].
  split; [intros code; apply get_destination_info_status|]. split; [|split].
  - intros country. unfold search_destination_by_name. rewrite result_mbind.
    destruct (result get_destinations w) as [destinations|c' d'|e] eqn:Hd;
      try discriminate.
    + cbn [obind]. destruct (find _ destinations); [discriminate|].
      unfold result. rewrite mbind_http_get. cbn [snd].
      destruct (w (GET_name country)) as [e|status e|countries|];
        try discriminate; try (intros [= <- _]; now left).
      destruct (truthy countries); [|intros [= <- _]; now left].
      rewrite result_mbind. unfold result at 1, lift at 1. cbn [snd].
      destruct (py_len_pos countries) as [[|]|c' d'|e] eqn:Hl; try discriminate.
      * intros H. exfalso. revert H. unfold result, lift. cbn [obind snd].
        no_http_steps.
      * intros [= <- _]. now left.
      * intros _. exfalso. exact (no_http_py_len_pos _ _ _ Hl).
    + intros [= <- <-]. right. exact (get_destinations_status _ _ _ Hd).
  - intros [name]. rewrite by_name_result.
    destruct (result get_destinations w) as [destinations|c' d'|e] eqn:Hd;
      try discriminate.
    + cbn [obind]. destruct (find _ destinations) as [m|].
      * apply summary_pipeline_status.
      * intros [= <- _]. now left.
    + intros [= <- <-]. right. exact (get_destinations_status _ _ _ Hd).
  - intros [[code|]].
    + destruct (string_dec code "") as [->|Hne].
      * intros [= <- _]. left. split; [reflexivity | now right].
      * rewrite (get_travel_summary_pipeline code Hne). intros H. right.
        exact (summary_pipeline_status _ _ _ _ H).
    + intros [= <- _]. left. split; [reflexivity | now left].
Qed.

(** ** The body of a lookup *)


(** ** Listed names *)

Lemma contains_refl (s : string) : contains s s = true.
Proof.
  apply contains_iff. exists "", "". now rewrite append_nil_r.
Qed.

Lemma find_exists {A} (f : A -> bool) (l : list A) (x : A) :
  In x l -> f x = true -> exists m, find f l = Some m.
Proof.
  induction l as [|y l IH]; simpl; [contradiction|].
  intros [->|Hin] Hx.
  - rewrite Hx. now exists x.
  - destruct (f y); [now exists y | now apply IH].
Qed.

(** X19: on ASCII text (the name given, and the names and codes of the
    destinations), the name of a destination of the list, in any
    letter case and with white space around it, is never reported as not
    found: [get_travel_summary_by_name] then runs the pipeline for the
    first destination of the list whose name matches the trimmed name. *)
Theorem listed_name_is_found :
  forall (w : world) (name : string) (destinations : list Destination.t)
         (d : Destination.t),
    is_ascii name = true ->
    Forall (fun d => is_ascii (Destination.country_name d) = true
                     /\ is_ascii (Destination.country_code d) = true)
      destinations ->
    result get_destinations w = Ret destinations ->
    In d destinations ->
    lower (strip name) = lower (Destination.country_name d) ->
    exists before m after,
      destinations = (before ++ m :: after)%list
      /\ (forall d', In d' before ->
                     ~ partial_match_ci (strip name) (Destination.country_name d'))
      /\ partial_match_ci (strip name) (Destination.country_name m)
      /\ result (get_travel_summary_by_name (TravelByNameRequest.Build name)) w
         = result (summary_pipeline (Destination.country_code m)) w.
Proof.
  intros w name destinations d _ _ Hd Hin Heq.
  assert (Hm : name_matches (strip name) d = true).
  { unfold name_matches. rewrite Heq, contains_refl. reflexivity. }
  destruct (find_exists _ _ d Hin Hm) as (m & F).
  destruct (find_split _ _ _ F) as (before & after & Hsplit & Hbefore & Hmm).
  exists before, m, after. split; [exact Hsplit|]. split; [|split].
  - intros d' Hin'. apply name_matches_false_inv. now apply Hbefore.
  - now apply name_matches_iff.
  - now rewrite by_name_result, Hd; cbn [obind]; rewrite F.
Qed.

(** ** The two ways to a summary *)


End Service.

(** C7, as the specification states it, fails, whatever the validation
    of the fields: nothing in [get_destination_info] compares the record
    it receives with the code it asked for, and a record without "cca2"
    gives the empty code. *)
Lemma country_code_round_trip_not_ensured :
  ~ (exists validators : pydantic,
       forall (w : world) (code : string) (d : Destination.t),
         In code popular_codes ->
         result (@get_destination_info validators code) w = Ret d ->
         upper (Destination.country_code d) = upper code).
Proof.
  intros [validators H].
  specialize (H codeless_world "JP" japan_without_code).
  discriminate H; [simpl; tauto|].
  rewrite (get_destination_info_result codeless_world "JP" _ eq_refl).
  cbn [py_index0 obind]. unfold destination_of_record.
  cbn -[as_int]. now rewrite as_int_zero.
Qed.

(** * Examples

    The properties above hold for every validation of the numeric fields;
    the examples run with [sample_pydantic]. *)

#[local] Existing Instance sample_pydantic.


(** A use of C10 on a body whose "current" has only a temperature. *)
Lemma weather_missing_data_defaults_witness :
  result (get_weather_for_location (JNum 35) (JNum 139) "Tokyo")
         (forecast_world (JObj [("current", JObj [("temperature_2m", JNum 21)])]))
  = Ret (Weather.Build "Tokyo" (float_of_Z 21) "Clear sky" 0 (float_of_Z 0)).
Proof.
  destruct (weather_missing_data_defaults
              (forecast_world (JObj [("current", JObj [("temperature_2m", JNum 21)])]))
              (JNum 35) (JNum 139) "Tokyo"
              [("current", JObj [("temperature_2m", JNum 21)])] eq_refl)
    as (_ & H).
  destruct (H [("temperature_2m", JNum 21)] eq_refl) as (_ & G & _).
  apply G; reflexivity.
Defined.


(** A use of C4 in a world that knows Japan: a name that matches and a
    name that does not. *)
Lemma summary_by_name_resolution_witness :
  let w := japan_world tokyo_geocoding rainy_forecast in
  result (get_travel_summary_by_name (TravelByNameRequest.Build " JAPAN ")) w
  = result (get_travel_summary (TravelRequest.Build (Some "JP"))) w
  /\ get_travel_summary_by_name (TravelByNameRequest.Build "Brazil") w
     = ([GET_alpha_codes "JP,FR,IT,ES,TH,AU,GB,DE,NZ,CA"],
        HTTPException 404
          "Country 'Brazil' not found in destinations. Available countries: Japan...").
Proof.
  intros w. split.
  - destruct (summary_by_name_resolution w " JAPAN " eq_refl) as (_ & _ & H).
    destruct (H [japan] eq_refl) as (_ & Hhit);
      [repeat constructor|].
    destruct (Hhit [] [] japan eq_refl) as (_ & _ & G).
    + intros d [].
    + apply name_matches_iff. reflexivity.
    + apply G; [discriminate | reflexivity].
  - destruct (summary_by_name_resolution w "Brazil" eq_refl) as (_ & _ & H).
    destruct (H [japan] eq_refl) as (Hmiss & _);
      [repeat constructor|].
    apply Hmiss. intros d [<-|[]] Hm.
    apply name_matches_iff in Hm. discriminate Hm.
Defined.

Lemma japan_summary_by_name :
  get_travel_summary_by_name (TravelByNameRequest.Build " JAPAN ")
    (japan_world tokyo_geocoding rainy_forecast)
  = ([GET_alpha_codes "JP,FR,IT,ES,TH,AU,GB,DE,NZ,CA"; GET_alpha "JP";
      GET_geocoding_search "Tokyo";
      GET_forecast (JFloat (S754_finite false 5022850590657479 (-47)))
                   (JFloat (S754_finite false 4914965102365214 (-45)))],
     Ret japan_summary).
Proof. reflexivity. Qed.


(** A use of C7 at "JP" in a world that knows Japan. *)
Lemma country_code_round_trip_witness :
  upper (Destination.country_code japan) = upper "JP".
Proof.
  destruct country_code_round_trip as (_ & H).
  apply (H (japan_world tokyo_geocoding rainy_forecast) "JP" japan).
  - simpl. tauto.
  - intros data kv [= <-] [= <-]. exists "JP". split; reflexivity.
  - reflexivity.
Defined.

(** [search_destination_by_name] finds Japan among the destinations, and
    for a name that is not among them it asks the country directory, which
    [get_travel_summary_by_name] never does. *)
Example search_japan :
  search_destination_by_name "Japan" (japan_world tokyo_geocoding rainy_forecast)
  = ([GET_alpha_codes "JP,FR,IT,ES,TH,AU,GB,DE,NZ,CA"],
     Ret (CountryCodeResponse.Build "JP" "Japan")).
Proof. reflexivity. Qed.

Example search_falls_back :
  search_destination_by_name "Brazil" (japan_world tokyo_geocoding rainy_forecast)
  = ([GET_alpha_codes "JP,FR,IT,ES,TH,AU,GB,DE,NZ,CA"; GET_name "Brazil"],
     HTTPException 404 "Country 'Brazil' not found. Try: Japan...").
Proof. reflexivity. Qed.

Lemma search_returns_first_match_witness :
  search_destination_by_name "fran"
    (service_world (Body (JArr [japan_record; france_record])) NotJson NotJson
       NotJson NotJson)
  = ([GET_alpha_codes "JP,FR,IT,ES,TH,AU,GB,DE,NZ,CA"],
     Ret (CountryCodeResponse.Build "FR" "France")).
Proof.
  apply (search_returns_first_match _ "fran" [japan] [] france).
  - reflexivity.
  - repeat constructor.
  - reflexivity.
  - intros d [<-|[]] H. apply name_matches_iff in H. discriminate H.
  - apply name_matches_iff. reflexivity.
Defined.

Lemma search_falls_back_to_directory_witness :
  search_destination_by_name "fran"
    (service_world (Body (JArr [japan_record])) NotJson
       (Body (JArr [france_record])) NotJson NotJson)
  = ([GET_alpha_codes "JP,FR,IT,ES,TH,AU,GB,DE,NZ,CA"; GET_name "fran"],
     Ret (CountryCodeResponse.Build "FR" "France")).
Proof.
  refine (proj1 (search_falls_back_to_directory _ "fran" [japan] _ [] _ _ _ _ _)
            "FR" "France" [("common", JStr "France")] _ _ _);
    try reflexivity; [repeat constructor|].
  intros d [<-|[]] H. apply name_matches_iff in H. discriminate H.
Defined.

Lemma search_not_found_witness :
  search_destination_by_name "Atlantis"
    (service_world (Body (JArr [japan_record; france_record])) NotJson
       (StatusError 404 "Client error '404 Not Found'") NotJson NotJson)
  = ([GET_alpha_codes "JP,FR,IT,ES,TH,AU,GB,DE,NZ,CA"; GET_name "Atlantis"],
     HTTPException 404 "Country 'Atlantis' not found. Try: Japan, France...").
Proof.
  apply (search_not_found _ "Atlantis" [japan; france]).
  - reflexivity.
  - repeat constructor.
  - reflexivity.
  - intros d [<-|[<-|[]]] H; apply name_matches_iff in H; discriminate H.
  - reflexivity.
Defined.

Lemma destinations_unavailable_witness :
  get_travel_summary_by_name (TravelByNameRequest.Build "Japan")
    (service_world (StatusError 500 "Server error '500 Internal Server Error'")
       NotJson NotJson NotJson NotJson)
  = ([GET_alpha_codes "JP,FR,IT,ES,TH,AU,GB,DE,NZ,CA"],
     HTTPException 503
       "Failed to fetch country data: Server error '500 Internal Server Error'").
Proof.
  apply (destinations_unavailable _ "Server error '500 Internal Server Error'" "Japan").
  right. exists 500%Z. reflexivity.
Defined.



Lemma summary_requests_in_order_witness :
  (exists lat lon,
     trace (get_travel_summary (TravelRequest.Build (Some "jp")))
       (japan_world tokyo_geocoding rainy_forecast)
     = [GET_alpha (upper "jp"); GET_geocoding_search "Tokyo"; GET_forecast lat lon]
     /\ result (get_coordinates "Tokyo" (upper "jp"))
          (japan_world tokyo_geocoding rainy_forecast)
        = Ret (lat, lon)
     /\ lat <> JNull /\ lon <> JNull)
  /\ (exists before m after lat lon,
        [japan] = (before ++ m :: after)%list
        /\ (forall d, In d before ->
                      ~ partial_match_ci (strip " japan") (Destination.country_name d))
        /\ partial_match_ci (strip " japan") (Destination.country_name m)
        /\ trace (get_travel_summary_by_name (TravelByNameRequest.Build " japan"))
             (japan_world tokyo_geocoding rainy_forecast)
           = [GET_alpha_codes "JP,FR,IT,ES,TH,AU,GB,DE,NZ,CA";
              GET_alpha (upper (Destination.country_code m));
              GET_geocoding_search "Tokyo"; GET_forecast lat lon]
        /\ result (get_coordinates "Tokyo" (Destination.country_code m))
             (japan_world tokyo_geocoding rainy_forecast)
           = Ret (lat, lon)
        /\ lat <> JNull /\ lon <> JNull).
Proof.
  split.
  - apply (proj1 summary_requests_in_order
             (japan_world tokyo_geocoding rainy_forecast) "jp" japan_summary);
      reflexivity.
  - apply (proj2 summary_requests_in_order
             (japan_world tokyo_geocoding rainy_forecast) " japan" japan_summary
             [japan]); try reflexivity.
    repeat constructor.
Defined.

Lemma summary_is_consistent_witness :
  Weather.location (TravelSummary.current_weather japan_summary) = "Tokyo"
  /\ TravelSummary.travel_tips japan_summary
     = generate_travel_tips "Japan" "Asia" (TravelSummary.current_weather japan_summary).
Proof.
  destruct (summary_is_consistent (japan_world tokyo_geocoding rainy_forecast)
              japan_summary) as (H1 & H2 & _).
  - right. exists (TravelByNameRequest.Build "japan"). reflexivity.
  - split; [exact H1 | exact H2].
Defined.

Lemma summary_by_code_ignores_case_witness :
  get_travel_summary (TravelRequest.Build (Some "jp"))
    (japan_world tokyo_geocoding rainy_forecast)
  = get_travel_summary (TravelRequest.Build (Some "Jp"))
      (japan_world tokyo_geocoding rainy_forecast).
Proof. apply summary_by_code_ignores_case. reflexivity. Defined.

Lemma blank_name_takes_first_destination_witness :
  result (get_travel_summary_by_name (TravelByNameRequest.Build "   "))
    (japan_world tokyo_geocoding rainy_forecast)
  = result (summary_pipeline "JP") (japan_world tokyo_geocoding rainy_forecast).
Proof.
  refine (proj1 (proj1 (blank_name_takes_first_destination _ "   " _) japan [] _));
    reflexivity.
Defined.



Lemma destinations_all_or_nothing_witness :
  (exists e,
     result get_destinations
       (service_world (Body (JArr [japan_record; JNull; france_record]))
          NotJson NotJson NotJson NotJson)
     = Raise e)
  /\ List.length [japan; france] = List.length [japan_record; france_record].
Proof.
  split.
  - refine (proj2 (destinations_all_or_nothing _ [japan_record; JNull; france_record]
                     eq_refl) _).
    exists JNull. split; [simpl; tauto | discriminate].
  - refine (proj1 (proj1 (destinations_all_or_nothing
                            (service_world (Body (JArr [japan_record; france_record]))
                               NotJson NotJson NotJson NotJson)
                            [japan_record; france_record] eq_refl)
                     [japan; france] _)).
    reflexivity.
Defined.



Lemma listed_name_is_found_witness :
  exists before m after,
    [japan; france] = (before ++ m :: after)%list
    /\ (forall d', In d' before ->
                   ~ partial_match_ci (strip " FRANCE ") (Destination.country_name d'))
    /\ partial_match_ci (strip " FRANCE ") (Destination.country_name m)
    /\ result (get_travel_summary_by_name (TravelByNameRequest.Build " FRANCE "))
         (service_world (Body (JArr [japan_record; france_record])) NotJson NotJson
            NotJson NotJson)
       = result (summary_pipeline (Destination.country_code m))
           (service_world (Body (JArr [japan_record; france_record])) NotJson NotJson
              NotJson NotJson).
Proof.
  apply (listed_name_is_found _ " FRANCE " [japan; france] france).
  - reflexivity.
  - repeat constructor.
  - reflexivity.
  - simpl. tauto.
  - reflexivity.
Defined.

